(** * ingredient_finder: the cart builder, the table parser and the unit
    converter of [ingredient_finder.py], embedded with the Python values
    they compute on.

    Quantities and durations are Python floats, that is IEEE 754 binary64:
    Rocq's primitive floats.  Cells, names and units are byte strings (the
    text is taken to be ASCII, so that [str.lower] and [str.strip] act
    byte by byte).  Ingredient records are objects: they live in a store
    and the recipe table and the shopping list hold their addresses. *)

From Stdlib Require Import ZArith Floats Ascii String DecimalString List Bool Lia.
From stdpp Require Import gmap strings list.

Set Warnings "-inexact-float".
Set Default Proof Using "Type".

Local Open Scope string_scope.
Local Open Scope list_scope.
Local Open Scope Z_scope.

(** ** The Python builtins the program calls *)

Module Py.

(** [str.lower] on ASCII text. *)
Definition ascii_lower (c : ascii) : ascii :=
  let n := N_of_ascii c in
  if ((65 <=? n) && (n <=? 90))%N then ascii_of_N (n + 32) else c.

Fixpoint lower (s : string) : string :=
  match s with
  | EmptyString => EmptyString
  | String c s' => String (ascii_lower c) (lower s')
  end.

(** The ASCII characters for which [str.isspace] holds: tab, line feed,
    vertical tab, form feed, carriage return, the four separators
    0x1c..0x1f and the space. *)
Definition is_space (c : ascii) : bool :=
  let n := N_of_ascii c in
  (((9 <=? n) && (n <=? 13)) || ((28 <=? n) && (n <=? 32)))%N.

Fixpoint lstrip (s : string) : string :=
  match s with
  | EmptyString => EmptyString
  | String c s' => if is_space c then lstrip s' else s
  end.

Definition rstrip (s : string) : string :=
  String.rev (lstrip (String.rev s)).

(** [str.strip()] with no argument. *)
Definition strip (s : string) : string := rstrip (lstrip s).

(** [x != y] on floats; [x != x] is the program's test for not-a-number. *)
Definition ne (x y : float) : bool := negb (x =? y)%float.

(** *** Exceptions and results *)

Inductive exn : Type :=
| StopIteration
| IndexError
| ValueError
| OverflowError
| KeyError (k : string).

Inductive result (A : Type) : Type :=
| Ok (a : A)
| Raise (e : exn).
Arguments Ok {A} a.
Arguments Raise {A} e.

Definition bind {A B} (r : result A) (k : A -> result B) : result B :=
  match r with
  | Ok a => k a
  | Raise e => Raise e
  end.

(** *** Decimal text to and from binary64 *)

(** The float nearest to [n / d] (ties to even, overflow to infinity), with
    sign [s]; [0 <= n] and [0 < d].  The quotient, its exponent and the
    position of the remainder are those of the division of Stdlib's float
    specification, taken on the integers [n] and [d]. *)
Definition float_of_ratio (s : bool) (n d : Z) : float :=
  let '(q, e, l) := SFdiv_core_binary prec emax n 0 d 0 in
  SF2Prim (binary_round_aux prec emax s q e l).

(** [n / d] rounded to an integer, halves to the even one. *)
Definition round_half_even (n d : Z) : Z :=
  let q := n / d in
  match (2 * (n mod d) ?= d) with
  | Lt => q
  | Gt => q + 1
  | Eq => if Z.even q then q else q + 1
  end.

(** The magnitude of a finite non-zero float as a fraction. *)
Definition ratio_of (m : positive) (e : Z) : Z * Z :=
  if 0 <=? e then (Zpos m * 2 ^ e, 1) else (Zpos m, 2 ^ (- e)).

(** [round(x, ndigits)] for [ndigits >= 0]: the decimal with [ndigits]
    places nearest to the exact value of [x] (halves to even), read back
    as a float.  Zeros, infinities and not-a-number come back as they
    are. *)
Definition round (x : float) (ndigits : N) : float :=
  match Prim2SF x with
  | S754_finite s m e =>
      let '(n, d) := ratio_of m e in
      let p := 10 ^ Z.of_N ndigits in
      float_of_ratio s (round_half_even (n * p) d) p
  | _ => x
  end.

(** [int(x)]: truncation towards zero. *)
Definition int_of_float (x : float) : result Z :=
  match Prim2SF x with
  | S754_zero _ => Ok 0
  | S754_finite s m e =>
      let '(n, d) := ratio_of m e in
      Ok (if s then - (n / d) else n / d)
  | S754_infinity _ => Raise OverflowError
  | S754_nan => Raise ValueError
  end.

(** [str(n)] for an int. *)
Definition str_of_int (n : Z) : string :=
  DecimalString.NilZero.string_of_int (Z.to_int n).

(** *** [float(s)] for a string

    White space is skipped at both ends, then the text is read by the
    grammar of the language reference: an optional sign, then [inf],
    [infinity] or [nan] in any letter case, or a decimal number with an
    optional exponent, where single underscores may separate digits. *)

(** The white space [float] skips in ASCII text is that of the C library:
    tab, line feed, vertical tab, form feed, carriage return and the
    space.  The separators 0x1c..0x1f, which [str.strip] removes, are
    not skipped: [float] rejects a text that begins or ends with one. *)
Definition c_isspace (c : ascii) : bool :=
  let n := N_of_ascii c in
  (((9 <=? n) && (n <=? 13)) || (n =? 32))%N.

Fixpoint c_lstrip (s : string) : string :=
  match s with
  | EmptyString => EmptyString
  | String c s' => if c_isspace c then c_lstrip s' else s
  end.

Definition c_strip (s : string) : string :=
  String.rev (c_lstrip (String.rev (c_lstrip s))).

Definition digit (c : ascii) : option Z :=
  let n := N_of_ascii c in
  if ((48 <=? n) && (n <=? 57))%N then Some (Z.of_N n - 48) else None.

(** After a first digit: more digits, each with at most one underscore
    before it.  [acc] is the number read so far, [cnt] its digit count. *)
Fixpoint digits_rest (acc cnt : Z) (s : string) : Z * Z * string :=
  match s with
  | String c s' =>
      match digit c with
      | Some d => digits_rest (10 * acc + d) (cnt + 1) s'
      | None =>
          match s' with
          | String c' s'' =>
              match digit c' with
              | Some d =>
                  if Ascii.eqb c "_"
                  then digits_rest (10 * acc + d) (cnt + 1) s''
                  else (acc, cnt, s)
              | None => (acc, cnt, s)
              end
          | EmptyString => (acc, cnt, s)
          end
      end
  | EmptyString => (acc, cnt, s)
  end.

Definition digitpart (acc cnt : Z) (s : string) : option (Z * Z * string) :=
  match s with
  | String c s' =>
      match digit c with
      | Some d => Some (digits_rest (10 * acc + d) (cnt + 1) s')
      | None => None
      end
  | EmptyString => None
  end.

Definition sign (s : string) : bool * string :=
  match s with
  | String "-" s' => (true, s')
  | String "+" s' => (false, s')
  | _ => (false, s)
  end.

(** [digitpart ["."] | [digitpart] "." digitpart]: all the digits as one
    integer, the number of them after the point, and the rest. *)
Definition number (s : string) : option (Z * Z * string) :=
  match digitpart 0 0 s with
  | Some (i, _, String "." r) =>
      match digitpart i 0 r with
      | Some mfr => Some mfr
      | None => Some (i, 0, r)
      end
  | Some (i, _, r) => Some (i, 0, r)
  | None =>
      match s with
      | String "." r => digitpart 0 0 r
      | _ => None
      end
  end.

(** What follows the number: nothing, or an exponent up to the end. *)
Definition exponent (s : string) : option Z :=
  match s with
  | EmptyString => Some 0
  | String c r =>
      if Ascii.eqb (ascii_lower c) "e" then
        let '(neg, r') := sign r in
        match digitpart 0 0 r' with
        | Some (x, _, EmptyString) => Some (if neg then - x else x)
        | _ => None
        end
      else None
  end.

Definition float_of_str (s : string) : result float :=
  let '(neg, body) := sign (c_strip s) in
  let word := lower body in
  if String.eqb word "inf" || String.eqb word "infinity" then
    Ok (if neg then neg_infinity else infinity)
  else if String.eqb word "nan" then Ok nan
  else
    match number body with
    | Some (m, f, r) =>
        match exponent r with
        | Some x =>
            let e := x - f in
            Ok (if 0 <=? e then float_of_ratio neg (m * 10 ^ e) 1
                else float_of_ratio neg m (10 ^ (- e)))
        | None => Raise ValueError
        end
    | None => Raise ValueError
    end.

(** *** [str(x)] for a float: the shortest decimal that reads back as [x] *)

Definition digits10 (n : Z) : Z := Z.of_nat (String.length (str_of_int n)).

(** The [k] with [10^(k-1) <= n/d < 10^k], for [0 < n] and [0 < d]. *)
Definition decimal_point (n d : Z) : Z :=
  if d <=? n then digits10 (n / d) else 1 - digits10 ((d - 1) / n).

(** [c * 10^x] as a float. *)
Definition float_of_decimal (c x : Z) : float :=
  if 0 <=? x then float_of_ratio false (c * 10 ^ x) 1
  else float_of_ratio false c (10 ^ (- x)).

(** The decimal of [p] significant digits for the positive float [ax] of
    value [n/d]: of the two [p]-digit neighbours of [n/d], one that reads
    back as [ax], the nearer if both do (halves to even).  With [force],
    the nearer one whether it reads back or not. *)
Definition decimal_at (force : bool) (ax : float) (n d k p : Z) : option Z :=
  let x := k - p in
  let '(sn, sd) := if 0 <=? x then (n, d * 10 ^ x) else (n * 10 ^ (- x), d) in
  let lo := sn / sd in
  let hi := lo + 1 in
  let near := round_half_even sn sd in
  let back c := (float_of_decimal c x =? ax)%float in
  if force then Some near
  else if back near then Some near
  else if back lo then Some lo
  else if back hi then Some hi
  else None.

Fixpoint shortest (ax : float) (n d k : Z) (p : Z) (more : nat) : Z * Z :=
  match more with
  | O => (p, default 0 (decimal_at true ax n d k p))
  | S more' =>
      match decimal_at false ax n d k p with
      | Some c => (p, c)
      | None => shortest ax n d k (p + 1) more'
      end
  end.

Fixpoint strip_zeros (rev_digits : string) : string :=
  match rev_digits with
  | String "0" s => strip_zeros s
  | _ => rev_digits
  end.

Fixpoint zeros (n : nat) : string :=
  match n with
  | O => ""
  | S n' => String "0" (zeros n')
  end.

(** The digits [ds], read as [0.ds * 10^decpt], the way [repr] lays them
    out: with an exponent when [decpt <= -4] or [decpt > 16]. *)
Definition layout (ds : string) (decpt : Z) : string :=
  let n := Z.of_nat (String.length ds) in
  if (decpt <=? -4) || (16 <? decpt) then
    let e := decpt - 1 in
    let mant :=
      match ds with
      | String c (String _ _ as r) => String c ("." +:+ r)
      | _ => ds
      end in
    let es := str_of_int (Z.abs e) in
    mant +:+ "e" +:+ (if e <? 0 then "-" else "+")
         +:+ (if Z.abs e <? 10 then "0" +:+ es else es)
  else if decpt <=? 0 then "0." +:+ zeros (Z.to_nat (- decpt)) +:+ ds
  else if n <=? decpt then ds +:+ zeros (Z.to_nat (decpt - n)) +:+ ".0"
  else substring 0 (Z.to_nat decpt) ds +:+ "."
       +:+ substring (Z.to_nat decpt) (Z.to_nat (n - decpt)) ds.

Definition str_of_float (x : float) : string :=
  match Prim2SF x with
  | S754_nan => "nan"
  | S754_infinity s => if s then "-inf" else "inf"
  | S754_zero s => if s then "-0.0" else "0.0"
  | S754_finite s m e =>
      let '(n, d) := ratio_of m e in
      let k := decimal_point n d in
      let '(p, c) := shortest (abs x) n d k 1 16 in
      let ds := str_of_int c in
      let decpt := k + (Z.of_nat (String.length ds) - p) in
      let body := layout (String.rev (strip_zeros (String.rev ds))) decpt in
      if s then "-" +:+ body else body
  end.

End Py.

(** ** Unit converter *)

(** A module-level dict of the source, read only: an association list in
    the order of the source text. *)
Definition VOLUME_UNITS : list (string * float) :=
  [("tbsp", 0.0147868%float); ("tsp", 0.00492892%float);
   ("cup", 0.236588%float); ("oz", 0.0295735%float)].

Definition MASS_UNITS : list (string * float) :=
  [("g", 1e-3%float); ("kg", 1.0%float);
   ("lb", 0.453592%float); ("oz", 0.0283495%float)].

(** The value [d[k]] when [k in d], and [None] when [k not in d]. *)
Fixpoint dict_get (d : list (string * float)) (k : string) : option float :=
  match d with
  | [] => None
  | (k', v) :: d' => if String.eqb k' k then Some v else dict_get d' k
  end.

Definition convert_units (unit1 unit2 : string) : float :=
  let unit1 := Py.lower unit1 in
  let unit2 := Py.lower unit2 in
  if String.eqb unit1 unit2 then 1.0%float
  else
    match dict_get VOLUME_UNITS unit1, dict_get VOLUME_UNITS unit2 with
    | Some v1, Some v2 => (v1 / v2)%float
    | _, _ =>
        match dict_get MASS_UNITS unit1, dict_get MASS_UNITS unit2 with
        | Some m1, Some m2 => (m1 / m2)%float
        | _, _ => nan
        end
    end.


(** ** Data model *)

(** The dataclass [Ingredient].  [unit_] is the field [unit]. *)
Record Ingredient : Type := {
  name : string;
  quantity : float;
  unit_ : string;
  location : string;
  duration : float;
}.

(** [Ingredient.__eq__] (and [__hash__]): by name only. *)
Definition Ingredient_eq (a b : Ingredient) : bool :=
  String.eqb (name a) (name b).

(** Ingredient objects are mutable and shared by reference: the store holds
    them by address, in the order they were created.  Every address a
    program state holds is below the length of its store; a read past the
    end, which no such state makes, gives a blank record. *)
Abbreviation loc := nat (only parsing).
Abbreviation heap := (list Ingredient) (only parsing).

#[global] Instance Ingredient_inhabited : Inhabited Ingredient :=
  populate {| name := ""; quantity := 0%float; unit_ := "";
              location := ""; duration := 0%float |}.

Definition deref (h : heap) (l : loc) : Ingredient := h !!! l.

(** [obj.quantity = q] *)
Definition set_quantity (q : float) (i : Ingredient) : Ingredient :=
  {| name := name i; quantity := q; unit_ := unit_ i;
     location := location i; duration := duration i |}.

(** A line the cart builder prints: the ingredient it could not merge, the
    unit of the stored entry and the unit of the ingredient. *)
Record diagnostic : Type := Incompatible {
  diag_ingredient : Ingredient;
  diag_stored_unit : string;
  diag_unit : string;
}.

(** What a call can change outside its result: the objects and the text
    printed so far. *)
Record world : Type := World {
  objects : heap;
  printed : list diagnostic;
}.

#[global] Instance result_ret : MRet Py.result := @Py.Ok.
#[global] Instance result_bind : MBind Py.result := λ A B k r, Py.bind r k.

(** ** Table parser *)

(** A row of the table: a tuple of cells. *)
Abbreviation row := (list string) (only parsing).

(** [row[i]] *)
Definition cell (r : row) (i : nat) : Py.result string :=
  match r !! i with
  | Some c => Py.Ok c
  | None => Py.Raise Py.IndexError
  end.

(** [len(s) == 0] *)
Definition is_empty (s : string) : bool :=
  Nat.eqb (String.length s) 0.

(** The local variables of [load_ingredients] that live across rows,
    with the store the new objects go to. *)
Record parser : Type := Parser {
  p_objects : heap;
  p_current_recipe : string;
  p_recipes : gmap string (list loc);
  p_bulk_items : gset string;
}.

(** The dict and the set [load_ingredients] returns, and the store. *)
Record loaded : Type := Loaded {
  l_objects : heap;
  l_recipes : gmap string (list loc);
  l_bulk_items : gset string;
}.

(** The [duration] column: the cell is stripped first. *)
Definition parse_duration (c : string) : Py.result float :=
  let duration := Py.strip c in
  if String.eqb duration "indefinite" then Py.Ok nan
  else if is_empty duration then Py.Ok 0.0%float
  else Py.float_of_str duration.

(** The [quantity] column: the cell is taken as it is. *)
Definition parse_quantity (c : string) : Py.result float :=
  if is_empty c then Py.Ok 0.0%float else Py.float_of_str c.

(** One turn of the loop over the body rows. *)
Definition load_row (st : parser) (r : row) : Py.result parser :=
  c0 ← cell r 0;
  let recipe_name := Py.strip c0 in
  let current_recipe :=
    if negb (is_empty recipe_name) then recipe_name
    else p_current_recipe st in
  c5 ← cell r 5;
  duration ← parse_duration c5;
  c1 ← cell r 1;
  c2 ← cell r 2;
  quantity ← parse_quantity c2;
  c3 ← cell r 3;
  c4 ← cell r 4;
  let ingredient :=
    {| name := Py.strip (Py.lower c1); quantity := quantity;
       unit_ := Py.strip c3; location := Py.strip c4;
       duration := duration |} in
  let l := length (p_objects st) in
  let recipes :=
    match p_recipes st !! current_recipe with
    | None => <[current_recipe := [l]]> (p_recipes st)
    | Some ingredients =>
        <[current_recipe := ingredients ++ [l]]> (p_recipes st)
    end in
  let bulk_items :=
    if Py.ne duration duration then {[name ingredient]} ∪ p_bulk_items st
    else p_bulk_items st in
  Py.Ok (Parser (p_objects st ++ [ingredient]) current_recipe
           recipes bulk_items).

Fixpoint load_rows (st : parser) (table : list row) : Py.result parser :=
  match table with
  | [] => Py.Ok st
  | r :: table' => st' ← load_row st r; load_rows st' table'
  end.

(** [load_ingredients(table)], run on the store [h]. *)
Definition load_ingredients (h : heap) (table : list row) : Py.result loaded :=
  match table with
  | [] => Py.Raise Py.StopIteration
  | header :: body =>
      st ← load_rows (Parser h "" ∅ ∅) body;
      Py.Ok (Loaded (p_objects st) (p_recipes st) (p_bulk_items st))
  end.

(** ** Cart builder *)

(** [ingredient in shopping_list] and
    [shopping_list[shopping_list.index(ingredient)]]: the first entry of
    the list that is equal to the ingredient, [None] when there is none. *)
Fixpoint find_entry (h : heap) (ingredient : Ingredient)
    (shopping_list : list loc) : option loc :=
  match shopping_list with
  | [] => None
  | s :: rest =>
      if Ingredient_eq (deref h s) ingredient then Some s
      else find_entry h ingredient rest
  end.

(** The body of the loop over the ingredients of a recipe; [l] is the
    object the recipe table holds. *)
Definition add_ingredient (w : world) (shopping_list : list loc) (l : loc)
    : world * list loc :=
  let ingredient := deref (objects w) l in
  match find_entry (objects w) ingredient shopping_list with
  | None => (w, shopping_list ++ [l])
  | Some s =>
      let stored := deref (objects w) s in
      let conversion := convert_units (unit_ stored) (unit_ ingredient) in
      if Py.ne conversion conversion then
        (World (objects w)
           (printed w ++
              [Incompatible ingredient (unit_ stored) (unit_ ingredient)]),
         shopping_list)
      else
        let q :=
          if Py.ne conversion 1.0%float
          then Py.round (quantity ingredient * conversion)%float 2
          else quantity ingredient in
        (World
           (<[s := set_quantity (quantity stored + q)%float stored]>
              (objects w))
           (printed w),
         shopping_list)
  end.

Fixpoint add_ingredients (w : world) (shopping_list : list loc)
    (ingredients : list loc) : world * list loc :=
  match ingredients with
  | [] => (w, shopping_list)
  | l :: rest =>
      let '(w', shopping_list') := add_ingredient w shopping_list l in
      add_ingredients w' shopping_list' rest
  end.

(** The loop over the query: the shopping list and the rows of the table
    so far go round; a name that is not a key of [recipes] ends it. *)
Fixpoint shop (recipes : gmap string (list loc)) (w : world)
    (shopping_list : list loc) (table : list (list string))
    (query : list string)
    : world * Py.result (list loc * list (list string)) :=
  match query with
  | [] => (w, Py.Ok (shopping_list, table))
  | key :: query' =>
      let table := table ++ [[key]] in
      match recipes !! key with
      | None => (w, Py.Raise (Py.KeyError key))
      | Some ingredients =>
          let '(w', shopping_list') :=
            add_ingredients w shopping_list ingredients in
          shop recipes w' shopping_list' table query'
      end
  end.

Definition ingredient_row (ingredient : Ingredient) : Py.result (list string) :=
  if is_empty (Py.strip (unit_ ingredient)) then Py.Ok [name ingredient]
  else if String.eqb (unit_ ingredient) "count" then
    q ← Py.int_of_float (quantity ingredient);
    Py.Ok [name ingredient; Py.str_of_int q; unit_ ingredient]
  else
    Py.Ok [name ingredient; Py.str_of_float (quantity ingredient);
           unit_ ingredient].

(** [ingredient.name in bulk_items] *)
Definition in_bulk (bulk_items : gset string) (ingredient : Ingredient) : bool :=
  bool_decide (name ingredient ∈ bulk_items).

(** The entries of the shopping list that are not bulk items, and those
    that are, each in the order of the list. *)
Definition fresh_entries (h : heap) (bulk_items : gset string)
    (shopping_list : list loc) : list Ingredient :=
  filter (λ i, negb (in_bulk bulk_items i)) (deref h <$> shopping_list).

Definition pantry_entries (h : heap) (bulk_items : gset string)
    (shopping_list : list loc) : list Ingredient :=
  filter (λ i, in_bulk bulk_items i) (deref h <$> shopping_list).

(** The two columns: a row for each entry; the first [ingredient_row]
    that raises ends the loop. *)
Definition main_ingredient_table (h : heap) (bulk_items : gset string)
    (shopping_list : list loc) : Py.result (list (list string)) :=
  mapM ingredient_row (fresh_entries h bulk_items shopping_list).

Definition pantry_ingredient_table (h : heap) (bulk_items : gset string)
    (shopping_list : list loc) : Py.result (list (list string)) :=
  mapM ingredient_row (pantry_entries h bulk_items shopping_list).

(** [column[index] if index < len(column) else ["", "", ""]] *)
Definition column_row (column : list (list string)) (index : nat) : list string :=
  match column !! index with
  | Some r => r
  | None => [""; ""; ""]
  end.

Definition paired_rows (main pantry : list (list string)) : list (list string) :=
  (λ index, column_row main index ++ column_row pantry index)
    <$> seq 0 (Nat.max (length main) (length pantry)).

(** [build_shopping_cart_table(query, recipes, bulk_items)], run in the
    world [w]: the world it leaves, and the table or the exception. *)
Definition build_shopping_cart_table (w : world) (query : list string)
    (recipes : gmap string (list loc)) (bulk_items : gset string)
    : world * Py.result (list (list string)) :=
  let '(w', r) := shop recipes w [] [["Plan 0"]] query in
  (w',
   '(shopping_list, table) ← r;
   main ← main_ingredient_table (objects w') bulk_items shopping_list;
   pantry ← pantry_ingredient_table (objects w') bulk_items shopping_list;
   Py.Ok (table ++ [[]; ["Ingredients"; ""; ""; "Pantry"]]
            ++ paired_rows main pantry)).

(** ** The command line and the printed text

    The two pure steps of [main]: the query it makes of its arguments or
    of the clipboard, and the text it makes of the table. *)

(** [sep.join(parts)] *)
Fixpoint join (sep : string) (parts : list string) : string :=
  match parts with
  | [] => ""
  | [p] => p
  | p :: parts' => p +:+ sep +:+ join sep parts'
  end.

(** [s.split(sep)] for a separator of one character. *)
Fixpoint split (sep : ascii) (s : string) : list string :=
  match s with
  | EmptyString => [""]
  | String c s' =>
      if Ascii.eqb c sep then "" :: split sep s'
      else
        match split sep s' with
        | p :: parts => String c p :: parts
        | [] => [String c ""]
        end
  end.

(** The ASCII characters at which [str.splitlines] ends a line: line
    feed, vertical tab, form feed, carriage return and the separators
    0x1c..0x1e. *)
Definition is_linebreak (c : ascii) : bool :=
  let n := N_of_ascii c in
  (((10 <=? n) && (n <=? 13)) || ((28 <=? n) && (n <=? 30)))%N.

(** [s.splitlines()]: a carriage return with the line feed after it ends
    one line, and a break at the very end opens no further line. *)
Fixpoint splitlines (s : string) : list string :=
  match s with
  | EmptyString => []
  | String c s' =>
      if is_linebreak c then
        match s' with
        | String c' s'' =>
            if Ascii.eqb c "013" && Ascii.eqb c' "010"
            then "" :: splitlines s''
            else "" :: splitlines s'
        | EmptyString => [""]
        end
      else
        match splitlines s' with
        | p :: parts => String c p :: parts
        | [] => [String c ""]
        end
  end.

(** The query [main] makes of the words of the command line
    ([args.query]), or of the text of the clipboard when there are none. *)
Definition query_of (query_arg : list string) (clipboard : string)
    : list string :=
  if (0 <? length query_arg)%nat then
    let merged := join " " query_arg in
    filter (λ q, negb (is_empty (Py.strip q))) (split "," merged)
  else splitlines (Py.strip clipboard).

(** The text [main] copies and prints: each row joined by tabs and ended
    by a line feed. *)
Fixpoint render (table : list (list string)) : string :=
  match table with
  | [] => ""
  | row :: table' =>
      (join (String "009" "") row +:+ String "010" "") +:+ render table'
  end.

(** ** Worked tables *)

Module Example.

(** The table of the end-to-end example: recipe A is a cup of flour, B is
    two tablespoons of flour, C is empty; flour is a bulk item. *)
Definition flour_objects : heap :=
  [ {| name := "flour"; quantity := 1%float; unit_ := "cup";
       location := "pantry"; duration := nan |};
    {| name := "flour"; quantity := 2%float; unit_ := "tbsp";
       location := "pantry"; duration := nan |} ].

Definition flour_recipes : gmap string (list loc) :=
  <["A" := [0%nat]]> (<["B" := [1%nat]]> (<["C" := []]> ∅)).

Definition flour_bulk : gset string := {["flour"]}.

(** Two recipes that both take sugar, in the same unit. *)
Definition sugar_objects : heap :=
  [ {| name := "sugar"; quantity := 1%float; unit_ := "cup";
       location := "pantry"; duration := 0%float |};
    {| name := "sugar"; quantity := 2%float; unit_ := "cup";
       location := "pantry"; duration := 0%float |} ].

Definition sugar_recipes : gmap string (list loc) :=
  <["A" := [0%nat]]> (<["B" := [1%nat]]> ∅).

(** One recipe that lists butter twice, in the same unit. *)
Definition butter_objects : heap :=
  [ {| name := "butter"; quantity := 1%float; unit_ := "cup";
       location := "fridge"; duration := 30%float |};
    {| name := "butter"; quantity := 2%float; unit_ := "cup";
       location := "fridge"; duration := 30%float |} ].

Definition butter_recipes : gmap string (list loc) :=
  <["R" := [0%nat; 1%nat]]> ∅.



(** A recipe with an ingredient that has no unit, next to a bulk item. *)
Definition eggs_objects : heap :=
  [ {| name := "eggs"; quantity := 2%float; unit_ := "";
       location := "fridge"; duration := 14%float |};
    {| name := "flour"; quantity := 1%float; unit_ := "cup";
       location := "pantry"; duration := nan |} ].

Definition eggs_recipes : gmap string (list loc) :=
  <["A" := [0%nat; 1%nat]]> ∅.

Definition header : row :=
  ["Recipe"; "Ingredient"; "Quantity"; "Unit"; "Location"; "Duration"].

(** A row whose duration cell is a single space, and one whose quantity
    cell is. *)
Definition space_duration_row : row :=
  ["Cake"; "flour"; "1"; "cup"; "pantry"; " "].

Definition space_quantity_row : row :=
  ["Cake"; "flour"; " "; "cup"; "pantry"; ""].

(** Two rows with an empty leading cell, then the first recipe. *)
Definition unnamed_rows : list row :=
  [ [""; "Salt"; "1"; "tsp"; ""; "indefinite"];
    [""; "pepper"; ""; ""; ""; ""] ].

Definition cake_rows : list row :=
  [ ["Cake"; "flour"; "2"; "cup"; "pantry"; "indefinite"];
    [""; "eggs"; "3"; "count"; "fridge"; "14"] ].

End Example.

(** ** The shopping list a query leaves, for statements about it *)

(** The entries of the shopping list after the query, read in the store
    the run leaves; [None] when the query names an unknown recipe. *)
Definition shopping_list_of (w : world) (query : list string)
    (recipes : gmap string (list loc)) : option (list Ingredient) :=
  match shop recipes w [] [["Plan 0"]] query with
  | (w', Py.Ok (shopping_list, _)) => Some (deref (objects w') <$> shopping_list)
  | (_, Py.Raise _) => None
  end.

(** ** Equality of unit names up to letter case *)

(** The same character, or the same letter in its two cases. *)
Definition same_letter (c d : ascii) : bool :=
  let m := N_of_ascii c in
  let n := N_of_ascii d in
  ((m =? n) || ((65 <=? m) && (m <=? 90) && (n =? m + 32))
   || ((65 <=? n) && (n <=? 90) && (m =? n + 32)))%N.

Fixpoint eq_ignore_case (a b : string) : bool :=
  match a, b with
  | EmptyString, EmptyString => true
  | String c a', String d b' => same_letter c d && eq_ignore_case a' b'
  | _, _ => false
  end.

(** ** Rows the parser rejects *)

(** [float(s)] returns. *)
Definition numeric (s : string) : bool :=
  match Py.float_of_str s with
  | Py.Ok _ => true
  | Py.Raise _ => false
  end.

(** A quantity cell the parser cannot read: not empty and not numeric. *)
Definition bad_quantity (c : string) : bool :=
  negb (is_empty c) && negb (numeric c).

(** A duration cell the parser cannot read: once stripped it is not
    empty, not the word indefinite, and not numeric. *)
Definition bad_duration (c : string) : bool :=
  let d := Py.strip c in
  negb (is_empty d) && negb (String.eqb d "indefinite") && negb (numeric d).

(** The same with the cell taken as it stands, which is how the
    specification words it. *)
Definition bad_duration_as_specified (c : string) : bool :=
  negb (is_empty c) && negb (String.eqb c "indefinite") && negb (numeric c).

(** A body row the parser rejects: fewer than six cells, or a quantity or
    a duration it cannot read. *)
Definition malformed (r : row) : bool :=
  match r with
  | _ :: _ :: c2 :: _ :: _ :: c5 :: _ => bad_quantity c2 || bad_duration c5
  | _ => true
  end.

Definition malformed_as_specified (r : row) : bool :=
  match r with
  | _ :: _ :: c2 :: _ :: _ :: c5 :: _ =>
      bad_quantity c2 || bad_duration_as_specified c5
  | _ => true
  end.

(** The record the parser makes of a row. *)
Definition row_ingredient (r : row) (i : Ingredient) : Prop :=
  ∃ c0 c1 c2 c3 c4 c5 tail,
    r = c0 :: c1 :: c2 :: c3 :: c4 :: c5 :: tail
    ∧ name i = Py.strip (Py.lower c1)
    ∧ parse_quantity c2 = Py.Ok (quantity i)
    ∧ unit_ i = Py.strip c3
    ∧ location i = Py.strip c4
    ∧ parse_duration c5 = Py.Ok (duration i).

(** A row whose leading cell is blank: it names no recipe. *)
Definition blank_leading (r : row) : Prop :=
  ∃ c0, r !! 0%nat = Some c0 ∧ Py.strip c0 = "".

(** [recipes[key]], and the empty list for a key the dict lacks. *)
Definition entries (recipes : gmap string (list loc)) (key : string) : list loc :=
  default [] (recipes !! key).

(** ** The cells of a paired row *)

(** The unit of the ingredient is not blank, so that it is written with
    its quantity and unit. *)
Definition has_unit (i : Ingredient) : bool :=
  negb (is_empty (Py.strip (unit_ i))).

(** The cells a column gives to the row [index]: the rendering of its
    entry there, or three empty cells past its end. *)
Definition column_cells (column : list Ingredient) (index : nat)
    (cells : list string) : Prop :=
  match column !! index with
  | Some ingredient => ingredient_row ingredient = Py.Ok cells
  | None => cells = [""; ""; ""]
  end.

(** The column has no entry at [index], or one with a unit. *)
Definition unit_or_absent (column : list Ingredient) (index : nat) : bool :=
  match column !! index with
  | Some ingredient => has_unit ingredient
  | None => true
  end.

(** ** Asking for a recipe twice *)

(** The record with its quantity added to itself. *)
Definition doubled (i : Ingredient) : Ingredient :=
  set_quantity (quantity i + quantity i)%float i.

(** The names of the records at the addresses [ls]. *)
Definition names (h : heap) (ls : list loc) : list string :=
  (λ l, name (deref h l)) <$> ls.

(** ** Vocabulary of the further properties *)

(** A string with no white space at its start. *)
Definition starts_clean (s : string) : Prop :=
  match s with
  | EmptyString => True
  | String c _ => Py.is_space c = false
  end.

(** [c in s] for a character. *)
Fixpoint has_char (c : ascii) (s : string) : bool :=
  match s with
  | EmptyString => false
  | String x s' => Ascii.eqb x c || has_char c s'
  end.

(** The names of the two unit tables. *)
Definition known_units : list string :=
  VOLUME_UNITS.*1 ++ MASS_UNITS.*1.

(** The recipe a body row belongs to when the row before it belonged to
    [current]: its stripped leading cell, or [current] when that is
    empty. *)
Definition section_of (current : string) (r : row) : string :=
  match r with
  | c0 :: _ => if negb (is_empty (Py.strip c0)) then Py.strip c0 else current
  | [] => current
  end.

(** The recipe of each body row, in order. *)
Fixpoint sections (current : string) (body : list row) : list string :=
  match body with
  | [] => []
  | r :: body' =>
      section_of current r :: sections (section_of current r) body'
  end.

(** The addresses [base], [base + 1], ... of the rows whose recipe is
    [key]. *)
Fixpoint addresses_of (key : string) (base : loc) (of_rows : list string)
    : list loc :=
  match of_rows with
  | [] => []
  | n :: of_rows' =>
      (if String.eqb n key then [base] else [])
      ++ addresses_of key (S base) of_rows'
  end.

(** The records a query asks for, in the order the loops meet them. *)
Definition requested (recipes : gmap string (list loc)) (query : list string)
    : list loc :=
  concat (entries recipes <$> query).

(** The names [ns] without those of [seen] and without repeats, each at
    its first place. *)
Fixpoint first_seen (seen ns : list string) : list string :=
  match ns with
  | [] => []
  | n :: ns' =>
      if bool_decide (n ∈ seen) then first_seen seen ns'
      else n :: first_seen (seen ++ [n]) ns'
  end.

(** Two records that differ in their quantity at most. *)
Definition same_but_quantity (i j : Ingredient) : Prop :=
  name i = name j ∧ unit_ i = unit_ j ∧ location i = location j
  ∧ duration i = duration j.

(** What a run of the cart builder leaves of the world [w] it started in:
    the store keeps its length, every record keeps all but its quantity,
    the records outside [sl] keep that too, and the printed text is only
    added to. *)
Record kept (sl : list loc) (w w' : world) : Prop := {
  kept_length : length (objects w') = length (objects w);
  kept_fields :
    ∀ l, same_but_quantity (deref (objects w') l) (deref (objects w) l);
  kept_others : ∀ l, l ∉ sl → deref (objects w') l = deref (objects w) l;
  kept_printed : ∃ more, printed w' = printed w ++ more;
}.

(** A sheet for the worked cases of the further properties. *)
Module Sample.

Definition body : list row :=
  [ ["Cake"; " Flour "; "2"; "cup"; "pantry"; "indefinite"];
    [""; "eggs"; "3"; ""; "fridge"; "14"];
    ["Pie "; "flour"; "1.5"; "Cup"; "pantry"; ""];
    [""; "Salt"; ""; "tsp"; ""; " indefinite "; "a note"] ].

(** What the parser makes of [body] on an empty store. *)
Definition objects : heap :=
  [ {| name := "flour"; quantity := 2%float; unit_ := "cup";
       location := "pantry"; duration := nan |};
    {| name := "eggs"; quantity := 3%float; unit_ := "";
       location := "fridge"; duration := 14%float |};
    {| name := "flour"; quantity := 1.5%float; unit_ := "Cup";
       location := "pantry"; duration := 0%float |};
    {| name := "salt"; quantity := 0%float; unit_ := "tsp";
       location := ""; duration := nan |} ].

Definition recipes : gmap string (list loc) :=
  <["Cake" := [0; 1]%nat]> (<["Pie" := [2; 3]%nat]> ∅).

Definition bulk_items : gset string := {["flour"; "salt"]}.

End Sample.

(** * Properties *)

(** ** Unit converter *)

(** C1: on the end-to-end table the cart for ["A"; "B"] has no fresh row
    and one pantry row, and the stored unit stays "cup", but the row is
    flour, 33.0, cup: the converter returns cup/tbsp (15.9999...) for the
    merge, so the two tablespoons add round(2 * 15.9999..., 2) = 32.0 to
    the cup.  The quantity is neither the 1.12 of the example nor what
    the example's own formula 1 + round(2 * 0.0147868 / 0.236588, 2)
    evaluates to, which is 1.13. *)
Theorem C1_flour_example_gives_33 :
  let '(w', r) :=
    build_shopping_cart_table (World Example.flour_objects []) ["A"; "B"]
      Example.flour_recipes Example.flour_bulk in
  r = Py.Ok [["Plan 0"]; ["A"]; ["B"]; []; ["Ingredients"; ""; ""; "Pantry"];
             [""; ""; ""; "flour"; "33.0"; "cup"]]
  ∧ main_ingredient_table (objects w') Example.flour_bulk [0%nat] = Py.Ok []
  ∧ pantry_ingredient_table (objects w') Example.flour_bulk [0%nat]
    = Py.Ok [["flour"; "33.0"; "cup"]]
  ∧ shopping_list_of (World Example.flour_objects []) ["A"; "B"]
      Example.flour_recipes
    = Some [ {| name := "flour"; quantity := 33%float; unit_ := "cup";
                location := "pantry"; duration := nan |} ]
  ∧ convert_units "cup" "tbsp" = (0.236588 / 0.0147868)%float
  ∧ (1 + Py.round (2 * 0.0147868 / 0.236588) 2 = 1.13)%float.
Proof. vm_compute. repeat split; reflexivity. Qed.

(** Two names that differ by letter case only have the same lower case. *)
Lemma same_letter_lower (c d : ascii) :
  same_letter c d = true → Py.ascii_lower c = Py.ascii_lower d.
Proof.
  unfold same_letter, Py.ascii_lower.
  pose proof (ascii_N_embedding c) as Hc.
  pose proof (ascii_N_embedding d) as Hd.
  revert Hc Hd. generalize (N_of_ascii c) (N_of_ascii d).
  intros m n <- <- H.
  apply orb_true_iff in H as [H | H]; [apply orb_true_iff in H as [H | H] |].
  - apply N.eqb_eq in H. by subst.
  - apply andb_true_iff in H as [H Hn]. rewrite H. apply N.eqb_eq in Hn.
    apply andb_true_iff in H as [H1 H2].
    apply N.leb_le in H1, H2. subst n.
    replace ((65 <=? m + 32)%N && (m + 32 <=? 90)%N) with false; [done |].
    symmetry. apply andb_false_iff. right. apply N.leb_gt. lia.
  - apply andb_true_iff in H as [H Hm]. rewrite H. apply N.eqb_eq in Hm.
    apply andb_true_iff in H as [H1 H2].
    apply N.leb_le in H1, H2. subst m.
    replace ((65 <=? n + 32)%N && (n + 32 <=? 90)%N) with false; [done |].
    symmetry. apply andb_false_iff. right. apply N.leb_gt. lia.
Qed.

Lemma eq_ignore_case_lower (a b : string) :
  eq_ignore_case a b = true → Py.lower a = Py.lower b.
Proof.
  revert b. induction a as [| c a IH]; intros [| d b] H; simpl in *;
    try done.
  apply andb_true_iff in H as [Hc Hab].
  by rewrite (same_letter_lower _ _ Hc), (IH _ Hab).
Qed.

(** C8: the converter returns exactly 1.0 for a unit and itself, whatever
    the unit, and for two units that are equal up to letter case. *)
Theorem C8_convert_units_reflexive (a b : string) :
  convert_units a a = 1.0%float
  ∧ (eq_ignore_case a b = true → convert_units a b = 1.0%float).
Proof.
  unfold convert_units. split.
  - by rewrite String.eqb_refl.
  - intros H. by rewrite (eq_ignore_case_lower _ _ H), String.eqb_refl.
Qed.

Lemma C8_witness :
  convert_units "furlong" "furlong" = 1.0%float
  ∧ convert_units "Cup" "cUP" = 1.0%float.
Proof.
  split.
  - exact (proj1 (C8_convert_units_reflexive "furlong" "furlong")).
  - exact (proj2 (C8_convert_units_reflexive "Cup" "cUP") eq_refl).
Defined.

(** ** Cart builder *)

(** C2: the build changes a record of the recipe table.  Recipe A holds a
    cup of sugar and B two cups; after the cart for ["A"; "B"] the record
    of A reads three cups, because the shopping list holds that very
    record and the merge adds to it. *)
Theorem C2_recipe_table_record_is_changed :
  let w := World Example.sugar_objects [] in
  let '(w', r) :=
    build_shopping_cart_table w ["A"; "B"] Example.sugar_recipes ∅ in
  Example.sugar_recipes !! "A" = Some [0%nat]
  ∧ quantity (deref (objects w) 0) = 1%float
  ∧ quantity (deref (objects w') 0) = 3%float
  ∧ r = Py.Ok [["Plan 0"]; ["A"]; ["B"]; [];
               ["Ingredients"; ""; ""; "Pantry"];
               ["sugar"; "3.0"; "cup"; ""; ""; ""]].
Proof. vm_compute. repeat split; reflexivity. Qed.

(** C3: a recipe that lists butter twice, one cup and two cups, gives
    three cups when asked for once and eight, not six, when asked for
    twice: on the second pass the stored record, which is the recipe's
    own first record and by then reads three, is added to itself. *)
Theorem C3_recipe_twice_is_not_doubled :
  let w := World Example.butter_objects [] in
  shopping_list_of w ["R"] Example.butter_recipes
  = Some [ {| name := "butter"; quantity := 3%float; unit_ := "cup";
              location := "fridge"; duration := 30%float |} ]
  ∧ shopping_list_of w ["R"; "R"] Example.butter_recipes
    = Some [ {| name := "butter"; quantity := 8%float; unit_ := "cup";
                location := "fridge"; duration := 30%float |} ]
  ∧ (3 + 3 = 6)%float
  ∧ Py.ne (convert_units "cup" "cup") (convert_units "cup" "cup") = false.
Proof. vm_compute. repeat split; reflexivity. Qed.

(** No entry of the shopping list has the name: the ingredient is new. *)
Lemma find_entry_none (h : heap) (i : Ingredient) (sl : list loc) :
  name i ∉ names h sl → find_entry h i sl = None.
Proof.
  induction sl as [| s sl IH]; simpl; [done |].
  intros Hnot. apply not_elem_of_cons in Hnot as [Hne Hnot].
  unfold Ingredient_eq.
  destruct (String.eqb_spec (name (deref h s)) (name i)); [congruence |].
  by apply IH.
Qed.

(** The first entry with the name of the record at [l] is [l] itself when
    no entry before it has that name. *)
Lemma find_entry_self (h : heap) (l : loc) (done todo : list loc) :
  name (deref h l) ∉ names h done →
  find_entry h (deref h l) (done ++ l :: todo) = Some l.
Proof.
  induction done as [| s done IH]; simpl.
  - intros _. unfold Ingredient_eq. by rewrite String.eqb_refl.
  - intros Hnot. apply not_elem_of_cons in Hnot as [Hne Hnot].
    unfold Ingredient_eq.
    destruct (String.eqb_spec (name (deref h s)) (name (deref h l)));
      [congruence |].
    by apply IH.
Qed.

(** Records with names that are all new are appended, and nothing is
    written. *)
Lemma first_pass (ls : list loc) :
  ∀ w sl,
    NoDup (names (objects w) (sl ++ ls)) →
    add_ingredients w sl ls = (w, sl ++ ls).
Proof.
  induction ls as [| l ls IH]; intros w sl Hnd; simpl.
  - by rewrite app_nil_r.
  - unfold add_ingredient. rewrite find_entry_none.
    + rewrite IH; rewrite <- app_assoc; done.
    + unfold names in *. rewrite fmap_app in Hnd.
      apply NoDup_app in Hnd as (_ & Hdis & _).
      intros Hin. apply (Hdis _ Hin). simpl. apply elem_of_cons. by left.
Qed.

(** Met again, each record of a list with distinct names is its own
    stored entry: the unit is converted to itself, by 1.0, and the
    quantity of the record is added to the record. *)
Lemma second_pass (h : heap) (out : list diagnostic)
    (todo : list loc) :
  ∀ done h',
    NoDup (names h (done ++ todo)) →
    Forall (λ l, (l < length h)%nat) todo →
    length h' = length h →
    (∀ l, name (deref h' l) = name (deref h l)) →
    (∀ l, l ∈ todo → deref h' l = deref h l) →
    ∃ h'',
      add_ingredients (World h' out) (done ++ todo) todo
      = (World h'' out, done ++ todo)
      ∧ (∀ l, l ∈ todo → deref h'' l = doubled (deref h l))
      ∧ (∀ l, l ∉ todo → deref h'' l = deref h' l).
Proof.
  induction todo as [| l todo IH]; intros done h' Hnd Hlt Hlen Hname Hsame.
  - exists h'. simpl. split; [done |]. split; [| done].
    intros l Hl. by apply elem_of_nil in Hl.
  - apply Forall_cons in Hlt as [Hl Hlt].
    assert (Hnd' := Hnd). unfold names in Hnd'. rewrite fmap_app in Hnd'.
    apply NoDup_app in Hnd' as (_ & Hdis & Hnd').
    simpl in Hnd'. apply NoDup_cons in Hnd' as [Hfresh _].
    assert (Hl_done : name (deref h' l) ∉ names h' done).
    { intros Hin. unfold names in Hin.
      apply list_elem_of_fmap in Hin as (s & Hs & Hin).
      apply (Hdis (name (deref h s))).
      - by apply list_elem_of_fmap_2'  with s.
      - simpl. apply elem_of_cons. left. by rewrite <- !Hname. }
    assert (Hl_todo : l ∉ todo).
    { intros Hin. apply Hfresh. by apply list_elem_of_fmap_2' with l. }
    simpl. unfold add_ingredient at 1. simpl.
    rewrite (find_entry_self h' l done todo Hl_done).
    assert (Hconv : ∀ u, convert_units u u = 1%float).
    { intros u. unfold convert_units. by rewrite String.eqb_refl. }
    rewrite Hconv.
    change (Py.ne 1 1) with false. cbv iota.
    set (h1 := <[l := _]> h').
    assert (Hh1_l : deref h1 l = doubled (deref h l)).
    { unfold h1, deref. rewrite list_lookup_total_insert_eq by lia.
      fold (deref h' l). rewrite (Hsame l) by (apply elem_of_cons; by left).
      done. }
    assert (Hh1_ne : ∀ l', l' ≠ l → deref h1 l' = deref h' l').
    { intros l' Hne. unfold h1, deref.
      by rewrite list_lookup_total_insert_ne. }
    destruct (IH (done ++ [l]) h1) as (h'' & Hrun & Hdone & Hkeep).
    + by rewrite <- app_assoc.
    + done.
    + unfold h1. by rewrite length_insert.
    + intros l'. destruct (decide (l' = l)) as [-> | Hne].
      * rewrite Hh1_l. done.
      * by rewrite Hh1_ne.
    + intros l' Hin. rewrite Hh1_ne; [apply Hsame; apply elem_of_cons; by right |].
      intros ->. done.
    + exists h''. rewrite <- app_assoc in Hrun. simpl in Hrun.
      split; [exact Hrun |]. split.
      * intros l' Hin. apply elem_of_cons in Hin as [-> | Hin].
        -- by rewrite (Hkeep l Hl_todo).
        -- by apply Hdone.
      * intros l' Hnot. apply not_elem_of_cons in Hnot as [Hne Hnot].
        rewrite (Hkeep l' Hnot). by apply Hh1_ne.
Qed.

(** When the records of a recipe have distinct names, asking for the
    recipe twice gives the shopping list of asking once with every
    quantity added to itself.  (The case C3 leaves: a name that comes
    twice in the recipe.) *)
Lemma recipe_twice_doubles_distinct_names (h : heap)
    (recipes : gmap string (list loc)) (r : string) (ls : list loc) :
  recipes !! r = Some ls →
  NoDup (names h ls) →
  Forall (λ l, (l < length h)%nat) ls →
  shopping_list_of (World h []) [r] recipes = Some (deref h <$> ls)
  ∧ shopping_list_of (World h []) [r; r] recipes
    = Some ((λ l, doubled (deref h l)) <$> ls).
Proof.
  intros Hr Hnd Hlt. unfold shopping_list_of. simpl. rewrite Hr.
  rewrite (first_pass ls (World h []) []) by done. simpl.
  split; [done |].
  destruct (second_pass h [] ls [] h Hnd Hlt eq_refl (λ _, eq_refl)
              (λ _ _, eq_refl)) as (h'' & Hrun & Hdone & _).
  simpl in Hrun. rewrite Hrun. simpl. f_equal.
  apply list_fmap_ext. intros i l Hl. apply Hdone.
  by apply list_elem_of_lookup_2 in Hl.
Qed.

(** A query with a name that is not a key of the table ends the loop over
    the query with a KeyError for such a name. *)
Lemma shop_unknown_recipe (recipes : gmap string (list loc))
    (query : list string) :
  ∀ w shopping_list table,
    (∃ key, key ∈ query ∧ recipes !! key = None) →
    ∃ w' key, key ∈ query ∧ recipes !! key = None
      ∧ shop recipes w shopping_list table query
        = (w', Py.Raise (Py.KeyError key)).
Proof.
  induction query as [| k query IH]; intros w shopping_list table
    (key & Hin & Hnone).
  - by apply elem_of_nil in Hin.
  - simpl. destruct (recipes !! k) as [ingredients |] eqn:Hk.
    + destruct (add_ingredients w shopping_list ingredients) as [w1 sl1].
      apply elem_of_cons in Hin as [-> | Hin]; [congruence |].
      destruct (IH w1 sl1 (table ++ [[k]])) as (w' & key' & Hin' & Hn' & Heq);
        [by exists key |].
      exists w', key'. split; [by apply elem_of_cons; right | done].
    + exists w, k. split; [by apply elem_of_cons; left | done].
Qed.

(** C5: a query that names a recipe absent from the table makes the build
    raise a KeyError, for a name of the query that the table lacks; the
    result is the exception, so no table of any kind is returned. *)
Theorem C5_unknown_recipe_aborts (w : world) (query : list string)
    (recipes : gmap string (list loc)) (bulk_items : gset string) :
  (∃ key, key ∈ query ∧ recipes !! key = None) →
  ∃ w' key, key ∈ query ∧ recipes !! key = None
    ∧ build_shopping_cart_table w query recipes bulk_items
      = (w', Py.Raise (Py.KeyError key)).
Proof.
  intros H.
  destruct (shop_unknown_recipe recipes query w [] [["Plan 0"]] H)
    as (w' & key & Hin & Hnone & Heq).
  exists w', key. unfold build_shopping_cart_table. by rewrite Heq.
Qed.

Lemma C5_witness :
  ∃ w' key, key ∈ ["A"; "D"; "B"] ∧ Example.flour_recipes !! key = None
    ∧ build_shopping_cart_table (World Example.flour_objects [])
        ["A"; "D"; "B"] Example.flour_recipes Example.flour_bulk
      = (w', Py.Raise (Py.KeyError key)).
Proof.
  apply C5_unknown_recipe_aborts. exists "D". split.
  - apply elem_of_cons. right. apply elem_of_cons. by left.
  - by vm_compute.
Defined.

(** ** Table parser *)

(** C10: with no row at all the parser raises (StopIteration, from taking
    the header); with the header row alone it returns an empty recipe
    table and an empty bulk set, and creates no object. *)
Theorem C10_header_is_taken_first (h : heap) (header : row) :
  load_ingredients h [] = Py.Raise Py.StopIteration
  ∧ load_ingredients h [header] = Py.Ok (Loaded h ∅ ∅).
Proof. split; reflexivity. Qed.

Lemma float_of_str_error (s : string) (e : Py.exn) :
  Py.float_of_str s = Py.Raise e → e = Py.ValueError.
Proof.
  unfold Py.float_of_str. intros H. repeat case_match; congruence.
Qed.

Lemma parse_quantity_total (c : string) :
  if bad_quantity c then parse_quantity c = Py.Raise Py.ValueError
  else ∃ q, parse_quantity c = Py.Ok q.
Proof.
  unfold bad_quantity, parse_quantity, numeric.
  destruct (is_empty c); simpl; [by eexists |].
  destruct (Py.float_of_str c) as [q | e] eqn:E; simpl; [by eexists |].
  by rewrite (float_of_str_error _ _ E).
Qed.

Lemma parse_duration_total (c : string) :
  if bad_duration c then parse_duration c = Py.Raise Py.ValueError
  else ∃ d, parse_duration c = Py.Ok d.
Proof.
  unfold bad_duration, parse_duration, numeric.
  destruct (String.eqb (Py.strip c) "indefinite").
  { rewrite andb_false_r. by eexists. }
  destruct (is_empty (Py.strip c)); simpl; [by eexists |].
  destruct (Py.float_of_str (Py.strip c)) as [d | e] eqn:E; simpl;
    [by eexists |].
  by rewrite (float_of_str_error _ _ E).
Qed.

(** A row is rejected exactly when it is malformed. *)
Lemma load_row_total (st : parser) (r : row) :
  if malformed r
  then ∃ e, load_row st r = Py.Raise e
            ∧ (e = Py.IndexError ∨ e = Py.ValueError)
  else ∃ st', load_row st r = Py.Ok st'.
Proof.
  destruct r as [| c0 [| c1 [| c2 [| c3 [| c4 [| c5 tail]]]]]];
    try (simpl; eexists; split; [reflexivity | by left]).
  unfold load_row, malformed. simpl.
  pose proof (parse_duration_total c5) as Hd.
  pose proof (parse_quantity_total c2) as Hq.
  destruct (bad_duration c5).
  - rewrite orb_true_r, Hd. simpl.
    eexists; split; [reflexivity | by right].
  - destruct Hd as [d ->]. rewrite orb_false_r. simpl.
    destruct (bad_quantity c2).
    + rewrite Hq. simpl. eexists; split; [reflexivity | by right].
    + destruct Hq as [q ->]. simpl. by eexists.
Qed.

(** What one accepted row does to the state of the loop. *)
Lemma load_row_inv (st st' : parser) (r : row) :
  load_row st r = Py.Ok st' →
  ∃ i c0,
    row_ingredient r i
    ∧ r !! 0%nat = Some c0
    ∧ p_objects st' = p_objects st ++ [i]
    ∧ p_current_recipe st'
      = (if negb (is_empty (Py.strip c0)) then Py.strip c0
         else p_current_recipe st)
    ∧ ∀ key, entries (p_recipes st') key
             = entries (p_recipes st) key
               ++ (if decide (key = p_current_recipe st')
                   then [length (p_objects st)] else []).
Proof.
  destruct r as [| c0 [| c1 [| c2 [| c3 [| c4 [| c5 tail]]]]]]; try done.
  unfold load_row. simpl.
  destruct (parse_duration c5) as [d |] eqn:Hd; [| done]. simpl.
  destruct (parse_quantity c2) as [q |] eqn:Hq; [| done]. simpl.
  intros [= <-]. simpl.
  set (cr := if negb (is_empty (Py.strip c0)) then Py.strip c0
             else p_current_recipe st).
  eexists _, c0. split; [| repeat split].
  - exists c0, c1, c2, c3, c4, c5, tail. simpl. by repeat split.
  - intros key. unfold entries.
    destruct (p_recipes st !! cr) as [ingredients |] eqn:Hcr;
      destruct (decide (key = cr)) as [-> | Hne].
    + by rewrite lookup_insert_eq, Hcr.
    + rewrite lookup_insert_ne by done. by rewrite app_nil_r.
    + by rewrite lookup_insert_eq, Hcr.
    + rewrite lookup_insert_ne by done. by rewrite app_nil_r.
Qed.

Lemma load_rows_total (body : list row) :
  ∀ st,
    if existsb malformed body
    then ∃ e, load_rows st body = Py.Raise e
              ∧ (e = Py.IndexError ∨ e = Py.ValueError)
    else ∃ st', load_rows st body = Py.Ok st'.
Proof.
  induction body as [| r body IH]; intros st; simpl; [by eexists |].
  pose proof (load_row_total st r) as Hr.
  destruct (malformed r); simpl.
  - destruct Hr as (e & -> & He). by exists e.
  - destruct Hr as [st1 ->]. simpl. apply IH.
Qed.

(** The objects of an accepted table: one per body row, in order, after
    those the store already held. *)
Lemma load_rows_objects (body : list row) :
  ∀ st st',
    load_rows st body = Py.Ok st' →
    ∃ ingredients,
      p_objects st' = p_objects st ++ ingredients
      ∧ Forall2 row_ingredient body ingredients.
Proof.
  induction body as [| r body IH]; intros st st'; simpl.
  - intros [= <-]. exists []. by rewrite app_nil_r.
  - destruct (load_row st r) as [st1 |] eqn:Hr; [| done]. simpl.
    intros Hrest.
    destruct (load_row_inv _ _ _ Hr) as (i & c0 & Hi & _ & Hobj & _).
    destruct (IH _ _ Hrest) as (ingredients & Hobjs & Hall).
    exists (i :: ingredients). split; [| by constructor].
    by rewrite Hobjs, Hobj, <- app_assoc.
Qed.

(** The lists of the recipe table only grow at their end, and by
    addresses of new objects. *)
Lemma load_rows_entries (body : list row) :
  ∀ st st',
    load_rows st body = Py.Ok st' →
    ∀ key, ∃ more,
      entries (p_recipes st') key = entries (p_recipes st) key ++ more
      ∧ Forall (λ l, (length (p_objects st) ≤ l)%nat) more.
Proof.
  induction body as [| r body IH]; intros st st'; simpl.
  - intros [= <-] key. exists []. by rewrite app_nil_r.
  - destruct (load_row st r) as [st1 |] eqn:Hr; [| done]. simpl.
    intros Hrest key.
    destruct (load_row_inv _ _ _ Hr) as (i & c0 & _ & _ & Hobj & _ & Hent).
    destruct (IH _ _ Hrest key) as (more & Hmore & Hall).
    rewrite Hmore, Hent, <- app_assoc. eexists. split; [done |].
    apply Forall_app. split.
    + case_decide; by repeat constructor.
    + eapply Forall_impl; [exact Hall |]. intros l. simpl.
      rewrite Hobj, length_app. simpl. lia.
Qed.

(** While no recipe has been named, rows with a blank leading cell go
    under the empty name, and under no other. *)
Lemma load_rows_unnamed (pre : list row) :
  ∀ st st',
    load_rows st pre = Py.Ok st' →
    Forall blank_leading pre →
    p_current_recipe st = "" →
    p_current_recipe st' = ""
    ∧ length (p_objects st') = (length (p_objects st) + length pre)%nat
    ∧ entries (p_recipes st') ""
      = entries (p_recipes st) ""
        ++ seq (length (p_objects st)) (length pre)
    ∧ ∀ key, key ≠ "" →
        entries (p_recipes st') key = entries (p_recipes st) key.
Proof.
  induction pre as [| r pre IH]; intros st st'; simpl.
  - intros [= <-] _ Hcr. rewrite app_nil_r.
    repeat split; [done | lia].
  - destruct (load_row st r) as [st1 |] eqn:Hr; [| done]. simpl.
    intros Hrest Hblank Hcr.
    apply Forall_cons in Hblank as [(c & Hc & Hstrip) Hblank].
    destruct (load_row_inv _ _ _ Hr) as (i & c0 & _ & Hc0 & Hobj & Hcr1 & Hent).
    assert (c0 = c) as -> by congruence.
    rewrite Hstrip, Hcr in Hcr1. simpl in Hcr1.
    destruct (IH _ _ Hrest Hblank Hcr1) as (Hcr' & Hlen & He & Hother).
    assert (Hlen1 : length (p_objects st1) = S (length (p_objects st))).
    { rewrite Hobj, length_app. simpl. lia. }
    split; [done |]. split; [| split].
    + lia.
    + rewrite He, Hent, Hcr1, Hlen1. rewrite decide_True by done.
      by rewrite <- app_assoc.
    + intros key Hkey. rewrite (Hother key Hkey), Hent, Hcr1.
      rewrite decide_False by done. by rewrite app_nil_r.
Qed.

Lemma load_rows_app (a b : list row) :
  ∀ st, load_rows st (a ++ b) = load_rows st a ≫= λ st1, load_rows st1 b.
Proof.
  induction a as [| r a IH]; intros st; simpl; [done |].
  destruct (load_row st r) as [st1 |]; simpl; [apply IH | done].
Qed.

(** C6 as worded fails: a duration cell that holds one space is not empty,
    not numeric and not the word indefinite, yet the row is accepted, with
    duration 0.0; a quantity cell that holds one space is rejected. *)
Lemma C6_counterexample :
  malformed_as_specified Example.space_duration_row = true
  ∧ Py.float_of_str " " = Py.Raise Py.ValueError
  ∧ load_ingredients [] [Example.header; Example.space_duration_row]
    = Py.Ok (Loaded
               [ {| name := "flour"; quantity := 1%float; unit_ := "cup";
                    location := "pantry"; duration := 0%float |} ]
               {["Cake" := [0%nat]]} ∅)
  ∧ load_ingredients [] [Example.header; Example.space_quantity_row]
    = Py.Raise Py.ValueError.
Proof. vm_compute. repeat split; reflexivity. Qed.

(** [float] does not skip the separators 0x1c..0x1f, which [str.strip]
    removes: a quantity cell that begins with one is rejected, and the
    same text is read in the duration cell, which is stripped first. *)
Example separator_before_number :
  let c := String "031" "2" in
  Py.strip c = "2"
  ∧ parse_quantity c = Py.Raise Py.ValueError
  ∧ parse_duration c = Py.Ok 2%float
  ∧ malformed ["Cake"; "flour"; c; "cup"; "pantry"; ""] = true
  ∧ load_ingredients []
      [Example.header; ["Cake"; "flour"; c; "cup"; "pantry"; ""]]
    = Py.Raise Py.ValueError.
Proof. vm_compute. repeat split; reflexivity. Qed.

(** C6, amended: parsing a header and body rows raises (IndexError or
    ValueError, and so returns no table) exactly when some body row has
    fewer than six cells, or a quantity cell that is not empty and not
    numeric, or a duration cell that, once stripped, is not empty, not
    the word indefinite and not numeric.  Otherwise it returns, with one
    new record per body row in order, and the record of a row with an
    empty quantity cell has quantity 0.0, that of a row whose stripped
    duration cell is empty has duration 0.0. *)
Theorem C6_malformed_rows_are_fatal (h : heap) (header : row)
    (body : list row) :
  if existsb malformed body
  then ∃ e, load_ingredients h (header :: body) = Py.Raise e
            ∧ (e = Py.IndexError ∨ e = Py.ValueError)
  else ∃ res ingredients,
         load_ingredients h (header :: body) = Py.Ok res
         ∧ l_objects res = h ++ ingredients
         ∧ Forall2
             (λ r i,
                row_ingredient r i
                ∧ (r !! 2%nat = Some "" → quantity i = 0.0%float)
                ∧ (∀ c5, r !! 5%nat = Some c5 → Py.strip c5 = "" →
                   duration i = 0.0%float))
             body ingredients.
Proof.
  unfold load_ingredients.
  pose proof (load_rows_total body (Parser h "" ∅ ∅)) as Htotal.
  destruct (existsb malformed body).
  - destruct Htotal as (e & -> & He). by exists e.
  - destruct Htotal as [st Hst]. rewrite Hst. simpl.
    destruct (load_rows_objects _ _ _ Hst) as (ingredients & Hobj & Hall).
    exists (Loaded (p_objects st) (p_recipes st) (p_bulk_items st)), ingredients.
    split; [done |]. split; [exact Hobj |].
    eapply Forall2_impl; [exact Hall |]. intros r i Hri. split; [done |].
    destruct Hri as (c0 & c1 & c2 & c3 & c4 & c5 & tail & -> & _ & Hq & _ & _ & Hd).
    simpl. split.
    + intros [= ->]. by injection Hq.
    + intros c [= <-] Hstrip. unfold parse_duration in Hd.
      rewrite Hstrip in Hd. by injection Hd.
Qed.

(** C9: body rows that come before any row with a non-empty leading cell
    (here, more generally, with a leading cell that is blank) are
    accepted like any other row, and their records, in order, head the
    list under the empty recipe name; the list under any other name holds
    records of later rows only. *)
Theorem C9_rows_before_first_recipe (h : heap) (header : row)
    (pre rest : list row) :
  Forall blank_leading pre →
  existsb malformed (pre ++ rest) = false →
  ∃ res more,
    load_ingredients h (header :: pre ++ rest) = Py.Ok res
    ∧ entries (l_recipes res) "" = seq (length h) (length pre) ++ more
    ∧ (∀ i r, pre !! i = Some r →
         ∃ ing, l_objects res !! (length h + i)%nat = Some ing
                ∧ row_ingredient r ing)
    ∧ ∀ key l, key ≠ "" → l ∈ entries (l_recipes res) key →
        (length h + length pre ≤ l)%nat.
Proof.
  intros Hblank Hwf. unfold load_ingredients.
  set (st0 := Parser h "" ∅ ∅).
  pose proof (load_rows_total (pre ++ rest) st0) as Htotal.
  rewrite Hwf in Htotal. destruct Htotal as [st Hst].
  rewrite Hst. simpl.
  pose proof Hst as Hsplit. rewrite load_rows_app in Hsplit.
  destruct (load_rows st0 pre) as [st1 |] eqn:Hpre; [| done].
  simpl in Hsplit.
  destruct (load_rows_unnamed _ _ _ Hpre Hblank eq_refl)
    as (_ & Hlen & Hhead & Hother).
  simpl in Hlen, Hhead.
  destruct (load_rows_entries _ _ _ Hsplit "") as (more & Hmore & _).
  destruct (load_rows_objects _ _ _ Hst) as (ingredients & Hobj & Hall).
  simpl in Hobj.
  eexists _, more. split; [done |]. simpl. split; [| split].
  - by rewrite Hmore, Hhead.
  - intros i r Hi.
    assert (Hi' : (pre ++ rest) !! i = Some r) by by apply lookup_app_l_Some.
    destruct (Forall2_lookup_l _ _ _ _ _ Hall Hi') as (ing & Hing & Hri).
    exists ing. split; [| done].
    rewrite Hobj, lookup_app_r by lia.
    by replace (length h + i - length h)%nat with i by lia.
  - intros key l Hkey Hl.
    destruct (load_rows_entries _ _ _ Hsplit key) as (more' & Hmore' & Hall').
    rewrite Hmore', (Hother key Hkey) in Hl. simpl in Hl.
    rewrite Forall_forall in Hall'. specialize (Hall' l Hl). lia.
Qed.

Lemma C9_witness :
  ∃ res more,
    load_ingredients [] (Example.header
                           :: Example.unnamed_rows ++ Example.cake_rows)
    = Py.Ok res
    ∧ entries (l_recipes res) "" = seq 0 2 ++ more
    ∧ (∀ i r, Example.unnamed_rows !! i = Some r →
         ∃ ing, l_objects res !! (0 + i)%nat = Some ing
                ∧ row_ingredient r ing)
    ∧ ∀ key l, key ≠ "" → l ∈ entries (l_recipes res) key →
        (0 + 2 ≤ l)%nat.
Proof.
  apply (C9_rows_before_first_recipe [] Example.header
           Example.unnamed_rows Example.cake_rows).
  - repeat constructor; by exists "".
  - reflexivity.
Defined.

(** ** Formatting *)

Lemma shop_table (recipes : gmap string (list loc)) (query : list string) :
  ∀ w shopping_list table w' shopping_list' table',
    shop recipes w shopping_list table query
    = (w', Py.Ok (shopping_list', table')) →
    table' = table ++ ((λ key, [key]) <$> query).
Proof.
  induction query as [| key query IH]; intros w sl table w' sl' table'; simpl.
  - intros [= _ _ <-]. by rewrite app_nil_r.
  - destruct (recipes !! key) as [ingredients |]; [| done].
    destruct (add_ingredients w sl ingredients) as [w1 sl1].
    intros H. rewrite (IH _ _ _ _ _ _ H). by rewrite <- app_assoc.
Qed.

Lemma mapM_ingredient_row (column : list Ingredient) :
  ∀ rendered,
    mapM ingredient_row column = Py.Ok rendered →
    Forall2 (λ i cells, ingredient_row i = Py.Ok cells) column rendered.
Proof.
  induction column as [| i column IH]; intros rendered; simpl.
  - intros [= <-]. constructor.
  - destruct (ingredient_row i) as [cells |] eqn:Hi; [| done]. simpl.
    destruct (mapM ingredient_row column) as [rest |]; [| done]. simpl.
    intros [= <-]. constructor; [done | by apply IH].
Qed.

Lemma ingredient_row_length (i : Ingredient) (cells : list string) :
  ingredient_row i = Py.Ok cells →
  length cells = if has_unit i then 3%nat else 1%nat.
Proof.
  unfold ingredient_row, has_unit.
  destruct (is_empty (Py.strip (unit_ i))); simpl.
  - by intros [= <-].
  - destruct (String.eqb (unit_ i) "count").
    + destruct (Py.int_of_float (quantity i)); [| done]. by intros [= <-].
    + by intros [= <-].
Qed.

Lemma column_row_cells (column : list Ingredient)
    (rendered : list (list string)) (index : nat) :
  Forall2 (λ i cells, ingredient_row i = Py.Ok cells) column rendered →
  column_cells column index (column_row rendered index)
  ∧ length (column_row rendered index)
    = if unit_or_absent column index then 3%nat else 1%nat.
Proof.
  intros Hall. unfold column_cells, column_row, unit_or_absent.
  destruct (column !! index) as [i |] eqn:Hi.
  - destruct (Forall2_lookup_l _ _ _ _ _ Hall Hi) as (cells & -> & Hcells).
    split; [done | by apply ingredient_row_length].
  - apply lookup_ge_None in Hi.
    rewrite (Forall2_length _ _ _ Hall) in Hi.
    by rewrite (proj2 (lookup_ge_None _ _) Hi).
Qed.

Lemma paired_rows_lookup (main pantry : list (list string)) (index : nat) :
  (index < Nat.max (length main) (length pantry))%nat →
  paired_rows main pantry !! index
  = Some (column_row main index ++ column_row pantry index).
Proof.
  intros Hlt. unfold paired_rows.
  by rewrite list_lookup_fmap, lookup_seq_lt.
Qed.

Lemma paired_rows_length (main pantry : list (list string)) :
  length (paired_rows main pantry)
  = Nat.max (length main) (length pantry).
Proof. unfold paired_rows. by rewrite length_fmap, length_seq. Qed.

(** C7 as worded fails: eggs have no unit and flour is a bulk item, so
    the row that pairs them is eggs, flour, 1.0, cup: four cells, with
    the pantry rendering from cell 1 on. *)
Lemma C7_counterexample :
  snd (build_shopping_cart_table (World Example.eggs_objects []) ["A"]
         Example.eggs_recipes Example.flour_bulk)
  = Py.Ok [["Plan 0"]; ["A"]; []; ["Ingredients"; ""; ""; "Pantry"];
           ["eggs"; "flour"; "1.0"; "cup"]]
  ∧ fresh_entries Example.eggs_objects Example.flour_bulk [0; 1]%nat
    = [deref Example.eggs_objects 0]
  ∧ pantry_entries Example.eggs_objects Example.flour_bulk [0; 1]%nat
    = [deref Example.eggs_objects 1]
  ∧ ingredient_row (deref Example.eggs_objects 0) = Py.Ok ["eggs"]
  ∧ ingredient_row (deref Example.eggs_objects 1)
    = Py.Ok ["flour"; "1.0"; "cup"]
  ∧ length ["eggs"; "flour"; "1.0"; "cup"] = 4%nat.
Proof. vm_compute. repeat split; reflexivity. Qed.

(** C7, amended: the table is the title, one row per name of the query,
    an empty row, the header, and then one row per index below the longer
    of the two columns, which is the rendering of the fresh entry at that
    index (three empty cells past the end of the column) followed by that
    of the pantry entry (likewise).  A rendering has three cells when the
    unit of the ingredient is not blank and one when it is; so when the
    fresh entry is absent or has a unit the pantry rendering starts at
    cell 3, and when that holds of the pantry entry too the row has six
    cells. *)
Theorem C7_paired_rows (w w' : world) (query : list string)
    (recipes : gmap string (list loc)) (bulk_items : gset string)
    (table : list (list string)) :
  build_shopping_cart_table w query recipes bulk_items = (w', Py.Ok table) →
  ∃ shopping_list rows,
    let fresh := fresh_entries (objects w') bulk_items shopping_list in
    let pantry := pantry_entries (objects w') bulk_items shopping_list in
    shop recipes w [] [["Plan 0"]] query
    = (w', Py.Ok (shopping_list, [["Plan 0"]] ++ ((λ key, [key]) <$> query)))
    ∧ table = [["Plan 0"]] ++ ((λ key, [key]) <$> query)
              ++ [[]; ["Ingredients"; ""; ""; "Pantry"]] ++ rows
    ∧ length rows = Nat.max (length fresh) (length pantry)
    ∧ ∀ index, (index < length rows)%nat →
        ∃ left right,
          rows !! index = Some (left ++ right)
          ∧ column_cells fresh index left
          ∧ column_cells pantry index right
          ∧ length left = (if unit_or_absent fresh index then 3 else 1)%nat
          ∧ length right = (if unit_or_absent pantry index then 3 else 1)%nat
          ∧ (unit_or_absent fresh index = true →
             drop 3 (left ++ right) = right)
          ∧ (unit_or_absent fresh index = true →
             unit_or_absent pantry index = true →
             length (left ++ right) = 6%nat).
Proof.
  unfold build_shopping_cart_table.
  destruct (shop recipes w [] [["Plan 0"]] query) as [w1 [[sl tbl] | e]]
    eqn:Hshop; simpl; [| done].
  unfold main_ingredient_table, pantry_ingredient_table.
  destruct (mapM ingredient_row (fresh_entries (objects w1) bulk_items sl))
    as [main |] eqn:Hmain; simpl; [| by intros [= _ ?]].
  destruct (mapM ingredient_row (pantry_entries (objects w1) bulk_items sl))
    as [pantry |] eqn:Hpantry; simpl; [| by intros [= _ ?]].
  intros [= <- <-].
  pose proof (shop_table _ _ _ _ _ _ _ _ Hshop) as ->.
  apply mapM_ingredient_row in Hmain, Hpantry.
  exists sl, (paired_rows main pantry). simpl.
  split; [done |]. split; [by rewrite <- ?app_assoc |].
  rewrite paired_rows_length.
  rewrite <- (Forall2_length _ _ _ Hmain), <- (Forall2_length _ _ _ Hpantry).
  split; [done |]. intros index Hlt.
  destruct (column_row_cells _ _ index Hmain) as [Hl Hll].
  destruct (column_row_cells _ _ index Hpantry) as [Hr Hrl].
  exists (column_row main index), (column_row pantry index).
  split.
  { apply paired_rows_lookup.
    by rewrite (Forall2_length _ _ _ Hmain), (Forall2_length _ _ _ Hpantry)
      in Hlt. }
  repeat split; try done.
  - intros Hu. rewrite Hu in Hll. by rewrite drop_app_length'.
  - intros Hu Hu'. rewrite Hu in Hll. rewrite Hu' in Hrl.
    rewrite length_app. lia.
Qed.

Lemma C7_witness :
  ∃ shopping_list rows,
    let fresh :=
      fresh_entries Example.flour_objects Example.flour_bulk shopping_list in
    let pantry :=
      pantry_entries Example.flour_objects Example.flour_bulk shopping_list in
    shop Example.flour_recipes (World Example.flour_objects []) []
      [["Plan 0"]] ["A"; "C"]
    = (World Example.flour_objects [],
       Py.Ok (shopping_list, [["Plan 0"]] ++ ((λ key, [key]) <$> ["A"; "C"])))
    ∧ [["Plan 0"]; ["A"]; ["C"]; []; ["Ingredients"; ""; ""; "Pantry"];
       [""; ""; ""; "flour"; "1.0"; "cup"]]
      = [["Plan 0"]] ++ ((λ key, [key]) <$> ["A"; "C"])
        ++ [[]; ["Ingredients"; ""; ""; "Pantry"]] ++ rows
    ∧ length rows = Nat.max (length fresh) (length pantry)
    ∧ ∀ index, (index < length rows)%nat →
        ∃ left right,
          rows !! index = Some (left ++ right)
          ∧ column_cells fresh index left
          ∧ column_cells pantry index right
          ∧ length left = (if unit_or_absent fresh index then 3 else 1)%nat
          ∧ length right = (if unit_or_absent pantry index then 3 else 1)%nat
          ∧ (unit_or_absent fresh index = true →
             drop 3 (left ++ right) = right)
          ∧ (unit_or_absent fresh index = true →
             unit_or_absent pantry index = true →
             length (left ++ right) = 6%nat).
Proof.
  apply (C7_paired_rows (World Example.flour_objects [])
           (World Example.flour_objects []) ["A"; "C"]
           Example.flour_recipes Example.flour_bulk).
  by vm_compute.
Defined.

(** * Further properties *)

(** ** Strings *)

Lemma string_append_cons (c : ascii) (a b : string) :
  String c a +:+ b = String c (a +:+ b).
Proof. reflexivity. Qed.

Lemma string_append_assoc (a b c : string) :
  (a +:+ b) +:+ c = a +:+ (b +:+ c).
Proof.
  induction a as [| x a IH]; [done |].
  by rewrite !string_append_cons, IH.
Qed.

Lemma string_rev_app_append (s acc : string) :
  String.rev_app s acc = String.rev s +:+ acc.
Proof.
  unfold String.rev. revert acc.
  induction s as [| c s IH]; intros acc; simpl; [done |].
  rewrite (IH (String c acc)), (IH (String c "")).
  by rewrite string_append_assoc.
Qed.

Lemma string_rev_cons (c : ascii) (s : string) :
  String.rev (String c s) = String.rev s +:+ String c "".
Proof. unfold String.rev at 1. simpl. apply string_rev_app_append. Qed.

Lemma string_rev_snoc (c : ascii) (s : string) :
  String.rev (s +:+ String c "") = String c (String.rev s).
Proof.
  induction s as [| x s IH]; [done |].
  by rewrite string_append_cons, !string_rev_cons, IH.
Qed.

Lemma string_rev_involutive (s : string) : String.rev (String.rev s) = s.
Proof.
  induction s as [| c s IH]; [done |].
  by rewrite string_rev_cons, string_rev_snoc, IH.
Qed.

Lemma lstrip_starts_clean (s : string) : starts_clean (Py.lstrip s).
Proof.
  induction s as [| c s IH]; simpl; [done |].
  destruct (Py.is_space c) eqn:Hc; [done | by simpl].
Qed.

Lemma lstrip_clean (s : string) : starts_clean s → Py.lstrip s = s.
Proof. destruct s as [| c s]; simpl; [done | by intros ->]. Qed.

Lemma lstrip_snoc (c : ascii) (s : string) :
  Py.is_space c = false →
  Py.lstrip (s +:+ String c "") = Py.lstrip s +:+ String c "".
Proof.
  intros Hc. induction s as [| x s IH]; [simpl; by rewrite Hc |].
  rewrite string_append_cons. simpl. by destruct (Py.is_space x).
Qed.

(** Stripping the end keeps a first character that is not white space. *)
Lemma rstrip_starts_clean (s : string) :
  starts_clean s → starts_clean (Py.rstrip s).
Proof.
  unfold Py.rstrip. destruct s as [| c s]; [done |]. simpl. intros Hc.
  by rewrite string_rev_cons, (lstrip_snoc _ _ Hc), string_rev_snoc.
Qed.

Lemma strip_starts_clean (s : string) : starts_clean (Py.strip s).
Proof. apply rstrip_starts_clean, lstrip_starts_clean. Qed.

Lemma rstrip_idemp (s : string) : Py.rstrip (Py.rstrip s) = Py.rstrip s.
Proof.
  unfold Py.rstrip. rewrite string_rev_involutive.
  by rewrite (lstrip_clean _ (lstrip_starts_clean _)).
Qed.

(** A stripped string is not changed by stripping it again. *)
Lemma strip_idemp (s : string) : Py.strip (Py.strip s) = Py.strip s.
Proof.
  unfold Py.strip at 1.
  rewrite (lstrip_clean _ (strip_starts_clean s)).
  unfold Py.strip. apply rstrip_idemp.
Qed.

Lemma is_space_lower (c : ascii) :
  Py.is_space (Py.ascii_lower c) = Py.is_space c.
Proof. by destruct c as [[] [] [] [] [] [] [] []]. Qed.

Lemma ascii_lower_idemp (c : ascii) :
  Py.ascii_lower (Py.ascii_lower c) = Py.ascii_lower c.
Proof. by destruct c as [[] [] [] [] [] [] [] []]. Qed.

Lemma lower_idemp (s : string) : Py.lower (Py.lower s) = Py.lower s.
Proof.
  induction s as [| c s IH]; simpl; [done |].
  by rewrite ascii_lower_idemp, IH.
Qed.

Lemma lower_append (a b : string) :
  Py.lower (a +:+ b) = Py.lower a +:+ Py.lower b.
Proof.
  induction a as [| c a IH]; [done |].
  rewrite string_append_cons. simpl. by rewrite string_append_cons, IH.
Qed.

Lemma lower_rev (s : string) :
  Py.lower (String.rev s) = String.rev (Py.lower s).
Proof.
  induction s as [| c s IH]; [done |].
  simpl. by rewrite !string_rev_cons, lower_append, IH.
Qed.

Lemma lower_lstrip (s : string) :
  Py.lower (Py.lstrip s) = Py.lstrip (Py.lower s).
Proof.
  induction s as [| c s IH]; simpl; [done |].
  rewrite is_space_lower. by destruct (Py.is_space c).
Qed.

(** Lower case and stripping can be taken in either order. *)
Lemma lower_strip (s : string) :
  Py.lower (Py.strip s) = Py.strip (Py.lower s).
Proof.
  unfold Py.strip, Py.rstrip.
  by rewrite lower_rev, lower_lstrip, lower_rev, lower_lstrip.
Qed.

Lemma is_empty_false (s : string) : is_empty s = false ↔ s ≠ "".
Proof. by destruct s. Qed.

Lemma string_eqb_sym (a b : string) : String.eqb a b = String.eqb b a.
Proof.
  destruct (String.eqb_spec a b) as [-> | Hne].
  - by rewrite String.eqb_refl.
  - symmetry. apply String.eqb_neq. congruence.
Qed.

(** ** Unit converter *)

Lemma dict_get_Some (d : list (string * float)) (k : string) (v : float) :
  dict_get d k = Some v → k ∈ d.*1.
Proof.
  induction d as [| [k' v'] d IH]; simpl; [done |].
  destruct (String.eqb_spec k' k) as [-> | _].
  - intros _. apply elem_of_cons. by left.
  - intros H. apply elem_of_cons. right. by apply IH.
Qed.

Lemma dict_get_unknown (k : string) :
  k ∉ known_units →
  dict_get VOLUME_UNITS k = None ∧ dict_get MASS_UNITS k = None.
Proof.
  intros Hk. split.
  - destruct (dict_get VOLUME_UNITS k) as [v |] eqn:H; [| done].
    exfalso. apply Hk, elem_of_app. left. by eapply dict_get_Some.
  - destruct (dict_get MASS_UNITS k) as [v |] eqn:H; [| done].
    exfalso. apply Hk, elem_of_app. right. by eapply dict_get_Some.
Qed.

(** Only the lower case of the two names counts. *)
Lemma convert_units_lower (a b : string) :
  convert_units a b = convert_units (Py.lower a) (Py.lower b).
Proof. unfold convert_units. by rewrite !lower_idemp. Qed.

(** A name in neither table converts with itself only. *)
Lemma convert_units_unknown (x y : string) :
  Py.lower x ∉ known_units →
  convert_units x y
  = (if String.eqb (Py.lower x) (Py.lower y) then 1%float else nan)
  ∧ convert_units y x
    = (if String.eqb (Py.lower x) (Py.lower y) then 1%float else nan).
Proof.
  intros Hx. destruct (dict_get_unknown _ Hx) as [HV HM].
  unfold convert_units. rewrite (string_eqb_sym (Py.lower y)).
  rewrite HV, HM.
  split; [done |].
  destruct (String.eqb (Py.lower x) (Py.lower y)); [done |].
  destruct (dict_get VOLUME_UNITS (Py.lower y));
    by destruct (dict_get MASS_UNITS (Py.lower y)).
Qed.

(** A fact about a factor and the factor the other way round holds of all
    units when it holds of 1.0 with itself, of not-a-number with itself,
    and of every pair of names of the two tables. *)
Lemma convert_units_pairs (p : float → float → bool) :
  p 1%float 1%float = true →
  p nan nan = true →
  forallb
    (λ x, forallb (λ y, p (convert_units x y) (convert_units y x))
            known_units)
    known_units = true →
  ∀ a b, p (convert_units a b) (convert_units b a) = true.
Proof.
  intros H1 Hnan Hall a b.
  rewrite (convert_units_lower a b), (convert_units_lower b a).
  destruct (decide (Py.lower a ∈ known_units)) as [Ha | Ha];
    [destruct (decide (Py.lower b ∈ known_units)) as [Hb | Hb] |].
  - rewrite forallb_forall in Hall.
    apply list_elem_of_In in Ha, Hb.
    specialize (Hall _ Ha). rewrite forallb_forall in Hall.
    exact (Hall _ Hb).
  - assert (Hb' : Py.lower (Py.lower b) ∉ known_units)
      by by rewrite lower_idemp.
    destruct (convert_units_unknown _ (Py.lower a) Hb') as [-> ->].
    by destruct (String.eqb _ _).
  - assert (Ha' : Py.lower (Py.lower a) ∉ known_units)
      by by rewrite lower_idemp.
    destruct (convert_units_unknown _ (Py.lower b) Ha') as [-> ->].
    by destruct (String.eqb _ _).
Qed.

(** X15: whether two units are incompatible does not depend on which of
    them is the stored one: the converter returns not-a-number for a and
    b exactly when it does for b and a. *)
Theorem X15_incompatibility_is_symmetric (a b : string) :
  Py.ne (convert_units a b) (convert_units a b)
  = Py.ne (convert_units b a) (convert_units b a).
Proof.
  pose proof (convert_units_pairs
                (λ c d, Bool.eqb (Py.ne c c) (Py.ne d d))
                eq_refl eq_refl eq_refl a b) as H.
  by apply Bool.eqb_prop in H.
Qed.

(** X16: the factor from b to a times the factor from a to b is
    not-a-number (incompatible units) or lies between 1.0 and the next
    float above it, 1 + 2^-52. *)
Theorem X16_factors_are_reciprocal (a b : string) :
  let p := (convert_units a b * convert_units b a)%float in
  Py.ne p p = true
  ∨ ((1 <=? p) && (p <=? 0x1.0000000000001p+0))%float = true.
Proof.
  pose proof (convert_units_pairs
                (λ c d, Py.ne (c * d) (c * d)
                        || ((1 <=? c * d)
                            && (c * d <=? 0x1.0000000000001p+0)))%float
                eq_refl eq_refl eq_refl a b) as H.
  simpl. by apply orb_true_iff in H.
Qed.

(** X17: the converter returns not-a-number or a positive finite factor:
    never zero, a negative number or an infinity. *)
Theorem X17_factor_is_positive (a b : string) :
  let c := convert_units a b in
  Py.ne c c = true ∨ ((0 <? c) && (c <? infinity))%float = true.
Proof.
  pose proof (convert_units_pairs
                (λ c _, Py.ne c c || ((0 <? c) && (c <? infinity)))%float
                eq_refl eq_refl eq_refl a b) as H.
  simpl. by apply orb_true_iff in H.
Qed.

(** ** Table parser *)

(** All that one accepted row does to the state of the loop. *)
Lemma load_row_step (st st' : parser) (r : row) :
  load_row st r = Py.Ok st' →
  ∃ i,
    row_ingredient r i
    ∧ p_current_recipe st' = section_of (p_current_recipe st) r
    ∧ p_objects st' = p_objects st ++ [i]
    ∧ p_recipes st'
      = <[p_current_recipe st' :=
            entries (p_recipes st) (p_current_recipe st')
            ++ [length (p_objects st)]]> (p_recipes st)
    ∧ p_bulk_items st'
      = if Py.ne (duration i) (duration i)
        then {[name i]} ∪ p_bulk_items st else p_bulk_items st.
Proof.
  destruct r as [| c0 [| c1 [| c2 [| c3 [| c4 [| c5 tail]]]]]]; try done.
  unfold load_row. simpl.
  destruct (parse_duration c5) as [d |] eqn:Hd; [| done]. simpl.
  destruct (parse_quantity c2) as [q |] eqn:Hq; [| done]. simpl.
  intros [= <-]. simpl.
  eexists. split; [| repeat split].
  - exists c0, c1, c2, c3, c4, c5, tail. simpl. by repeat split.
  - unfold entries, section_of.
    by destruct (p_recipes st !! _).
Qed.

Lemma elem_of_addresses_of (key : string) (names : list string) :
  ∀ base l,
    l ∈ addresses_of key base names
    ↔ ∃ i, l = (base + i)%nat ∧ names !! i = Some key.
Proof.
  induction names as [| n names IH]; intros base l; simpl.
  - split; [by intros ?%elem_of_nil | by intros (i & _ & ?)].
  - rewrite elem_of_app, IH. split.
    + intros [Hl | (i & -> & Hi)].
      * destruct (String.eqb_spec n key) as [-> |];
          [| by apply elem_of_nil in Hl].
        apply list_elem_of_singleton in Hl as ->. exists 0%nat.
        split; [lia | done].
      * exists (S i). split; [lia | done].
    + intros ([| i] & -> & Hi); simpl in Hi.
      * injection Hi as ->. left. rewrite String.eqb_refl.
        apply list_elem_of_singleton. lia.
      * right. exists i. split; [lia | done].
Qed.

(** The dict after the body rows: each list has grown by the addresses of
    the rows of its recipe, and the keys are the old keys and the recipes
    of the rows. *)
Lemma load_rows_sections (body : list row) :
  ∀ st st',
    load_rows st body = Py.Ok st' →
    ∀ key,
      p_recipes st' !! key
      = if decide (key ∈ sections (p_current_recipe st) body)
        then Some (entries (p_recipes st) key
                   ++ addresses_of key (length (p_objects st))
                        (sections (p_current_recipe st) body))
        else p_recipes st !! key.
Proof.
  induction body as [| r body IH]; intros st st'.
  - intros [= <-] key. case_decide as Hin; [| done].
    by apply elem_of_nil in Hin.
  - simpl load_rows.
    destruct (load_row st r) as [st1 |] eqn:Hr; [| done]. simpl mbind.
    intros Hrest key.
    destruct (load_row_step _ _ _ Hr) as (i & _ & Hsec & Hobj & Hrec & _).
    simpl sections. rewrite <- Hsec.
    rewrite (IH _ _ Hrest key). simpl addresses_of.
    assert (Hlen : length (p_objects st1) = S (length (p_objects st))).
    { rewrite Hobj, length_app. simpl. lia. }
    rewrite Hlen.
    destruct (String.eqb_spec (p_current_recipe st1) key) as [Heq | Hne].
    + subst key.
      assert (He : entries (p_recipes st1) (p_current_recipe st1)
                   = entries (p_recipes st) (p_current_recipe st1)
                     ++ [length (p_objects st)]).
      { unfold entries at 1. by rewrite Hrec, lookup_insert_eq. }
      destruct (decide (_ ∈ _ :: _)) as [_ | Hno];
        [| exfalso; apply Hno, elem_of_cons; by left].
      case_decide as Hin.
      * by rewrite He, <- app_assoc.
      * rewrite Hrec, lookup_insert_eq. f_equal.
        assert (Hnone : addresses_of (p_current_recipe st1)
                          (S (length (p_objects st)))
                          (sections (p_current_recipe st1) body) = []).
        { destruct (addresses_of _ _ _) as [| l ls] eqn:Ha; [done |].
          exfalso.
          assert (Hl : l ∈ l :: ls) by (apply elem_of_cons; by left).
          rewrite <- Ha in Hl.
          apply elem_of_addresses_of in Hl as (j & _ & Hj).
          apply Hin. by apply list_elem_of_lookup_2 in Hj. }
        by rewrite Hnone.
    + assert (He : p_recipes st1 !! key = p_recipes st !! key).
      { rewrite Hrec. by rewrite lookup_insert_ne. }
      assert (He' : entries (p_recipes st1) key = entries (p_recipes st) key).
      { unfold entries. by rewrite He. }
      rewrite He, He'. simpl app.
      destruct (decide (key ∈ sections (p_current_recipe st1) body))
        as [Hin | Hnin].
      * destruct (decide (_ ∈ _ :: _)) as [_ | Hno]; [done |].
        exfalso. apply Hno, elem_of_cons. by right.
      * destruct (decide (_ ∈ _ :: _)) as [Hyes | _]; [| done].
        apply elem_of_cons in Hyes as [Hk | Hk]; [congruence | done].
Qed.

(** A table without a malformed body row is accepted. *)
Lemma load_ok (h : heap) (header : row) (body : list row) :
  existsb malformed body = false →
  ∃ st,
    load_rows (Parser h "" ∅ ∅) body = Py.Ok st
    ∧ load_ingredients h (header :: body)
      = Py.Ok (Loaded (p_objects st) (p_recipes st) (p_bulk_items st)).
Proof.
  intros Hwf. pose proof (load_rows_total body (Parser h "" ∅ ∅)) as Ht.
  rewrite Hwf in Ht. destruct Ht as [st Hst]. exists st.
  split; [done |]. unfold load_ingredients. by rewrite Hst.
Qed.

(** The worked sheet, parsed on an empty store. *)
Example sample_sheet_parsed :
  load_ingredients [] (Example.header :: Sample.body)
  = Py.Ok (Loaded Sample.objects Sample.recipes Sample.bulk_items).
Proof. vm_compute. reflexivity. Qed.

Lemma sections_length (body : list row) :
  ∀ current, length (sections current body) = length body.
Proof.
  induction body as [| r body IH]; intros current; simpl; [done |].
  by rewrite IH.
Qed.

(** X1: the recipe table of an accepted sheet has a key for each recipe
    that some body row belongs to, and no other; a row belongs to the
    recipe of its stripped leading cell, or, when that is empty, to the
    recipe of the row before it (the empty name before the first named
    row).  The list under a key holds the records of its rows, in the
    order of the rows. *)
Theorem X1_recipes_by_section (h : heap) (header : row) (body : list row) :
  existsb malformed body = false →
  ∃ res,
    load_ingredients h (header :: body) = Py.Ok res
    ∧ ∀ key,
        l_recipes res !! key
        = if decide (key ∈ sections "" body)
          then Some (addresses_of key (length h) (sections "" body))
          else None.
Proof.
  intros Hwf. destruct (load_ok h header body Hwf) as (st & Hst & Hload).
  eexists. split; [exact Hload |]. intros key. simpl.
  rewrite (load_rows_sections _ _ _ Hst key). simpl.
  by rewrite lookup_empty.
Qed.

Lemma X1_witness :
  ∃ res,
    load_ingredients [] (Example.header :: Sample.body) = Py.Ok res
    ∧ ∀ key,
        l_recipes res !! key
        = if decide (key ∈ sections "" Sample.body)
          then Some (addresses_of key 0 (sections "" Sample.body))
          else None.
Proof.
  apply (X1_recipes_by_section [] Example.header Sample.body).
  reflexivity.
Defined.

(** X2: parsing an accepted sheet leaves the records the store held as
    they were and adds one record per body row; an address is in the list
    of a recipe exactly when it is the address of the record of a body
    row of that recipe, so every address of the table points into the
    store, at the record made of its row. *)
Theorem X2_entries_are_rows (h : heap) (header : row) (body : list row) :
  existsb malformed body = false →
  ∃ res,
    load_ingredients h (header :: body) = Py.Ok res
    ∧ length (l_objects res) = (length h + length body)%nat
    ∧ take (length h) (l_objects res) = h
    ∧ ∀ key l,
        l ∈ entries (l_recipes res) key
        ↔ ∃ i r, l = (length h + i)%nat
                 ∧ body !! i = Some r
                 ∧ sections "" body !! i = Some key
                 ∧ row_ingredient r (deref (l_objects res) l).
Proof.
  intros Hwf. destruct (load_ok h header body Hwf) as (st & Hst & Hload).
  eexists. split; [exact Hload |]. simpl.
  destruct (load_rows_objects _ _ _ Hst) as (ingredients & Hobj & Hall).
  simpl in Hobj. rewrite Hobj.
  split; [by rewrite length_app, <- (Forall2_length _ _ _ Hall) |].
  split; [by rewrite take_app_length |].
  intros key l. unfold entries.
  rewrite (load_rows_sections _ _ _ Hst key). simpl.
  rewrite lookup_empty. unfold entries. rewrite lookup_empty. simpl.
  assert (Hrow : ∀ i, sections "" body !! i = Some key →
            ∃ r, body !! i = Some r
                 ∧ row_ingredient r (deref (h ++ ingredients) (length h + i))).
  { intros i Hi.
    assert (Hlt : (i < length body)%nat).
    { rewrite <- (sections_length body ""). by eapply lookup_lt_Some. }
    destruct (lookup_lt_is_Some_2 body i Hlt) as [r Hr].
    destruct (Forall2_lookup_l _ _ _ _ _ Hall Hr) as (ing & Hing & Hri).
    exists r. split; [done |]. unfold deref.
    rewrite (list_lookup_total_correct _ _ ing); [done |].
    rewrite lookup_app_r by lia.
    by replace (length h + i - length h)%nat with i by lia. }
  case_decide as Hin; simpl.
  - rewrite elem_of_addresses_of. split.
    + intros (i & -> & Hi). destruct (Hrow i Hi) as (r & Hr & Hri).
      by exists i, r.
    + intros (i & r & -> & _ & Hi & _). by exists i.
  - split; [by intros ?%elem_of_nil |].
    intros (i & r & _ & _ & Hi & _). exfalso. apply Hin.
    by apply list_elem_of_lookup_2 in Hi.
Qed.

Lemma X2_witness :
  ∃ res,
    load_ingredients [] (Example.header :: Sample.body) = Py.Ok res
    ∧ length (l_objects res) = (0 + length Sample.body)%nat
    ∧ take 0 (l_objects res) = []
    ∧ ∀ key l,
        l ∈ entries (l_recipes res) key
        ↔ ∃ i r, l = (0 + i)%nat
                 ∧ Sample.body !! i = Some r
                 ∧ sections "" Sample.body !! i = Some key
                 ∧ row_ingredient r (deref (l_objects res) l).
Proof.
  apply (X2_entries_are_rows [] Example.header Sample.body).
  reflexivity.
Defined.

(** The bulk set of the loop grows by the names of the new records whose
    duration is not a number. *)
Lemma load_rows_bulk (body : list row) :
  ∀ st st',
    load_rows st body = Py.Ok st' →
    ∀ n,
      n ∈ p_bulk_items st'
      ↔ n ∈ p_bulk_items st
        ∨ ∃ i, i ∈ drop (length (p_objects st)) (p_objects st')
               ∧ name i = n
               ∧ Py.ne (duration i) (duration i) = true.
Proof.
  induction body as [| r body IH]; intros st st'.
  - intros [= <-] n. rewrite drop_all. split; [by left |].
    intros [H | (i & Hi & _)]; [done | by apply elem_of_nil in Hi].
  - simpl load_rows.
    destruct (load_row st r) as [st1 |] eqn:Hr; [| done]. simpl mbind.
    intros Hrest n.
    destruct (load_row_step _ _ _ Hr) as (i & _ & _ & Hobj & _ & Hbulk).
    destruct (load_rows_objects _ _ _ Hrest) as (more & Hmore & _).
    rewrite (IH _ _ Hrest n), Hbulk, Hmore, Hobj.
    rewrite <- app_assoc, !drop_app_length.
    assert (Hd : drop (length (p_objects st ++ [i]))
                   (p_objects st ++ [i] ++ more) = more).
    { rewrite app_assoc. apply drop_app_length. }
    rewrite Hd. simpl.
    split.
    + intros [Hn | (j & Hj & Hname & Hnan)].
      * destruct (Py.ne (duration i) (duration i)) eqn:Hi; [| by left].
        apply elem_of_union in Hn as [Hn | Hn]; [| by left].
        apply elem_of_singleton in Hn. right. exists i.
        split; [apply elem_of_cons; by left | done].
      * right. exists j. split; [apply elem_of_cons; by right | done].
    + intros [Hn | (j & Hj & Hname & Hnan)].
      * left. destruct (Py.ne (duration i) (duration i)); [| done].
        apply elem_of_union. by right.
      * apply elem_of_cons in Hj as [-> | Hj].
        -- left. rewrite Hnan. apply elem_of_union. left.
           by apply elem_of_singleton.
        -- right. by exists j.
Qed.

(** X3: a name is in the bulk set of an accepted sheet exactly when it is
    the lower-cased, stripped ingredient cell of some body row whose
    duration cell is read as not-a-number (the word indefinite, or a
    number text that float() reads as nan): one such row is enough,
    whatever the other rows of that ingredient say. *)
Theorem X3_bulk_items_are_indefinite (h : heap) (header : row)
    (body : list row) :
  existsb malformed body = false →
  ∃ res,
    load_ingredients h (header :: body) = Py.Ok res
    ∧ ∀ n,
        n ∈ l_bulk_items res
        ↔ ∃ r c1 c5 d,
            r ∈ body ∧ r !! 1%nat = Some c1 ∧ r !! 5%nat = Some c5
            ∧ n = Py.strip (Py.lower c1)
            ∧ parse_duration c5 = Py.Ok d ∧ Py.ne d d = true.
Proof.
  intros Hwf. destruct (load_ok h header body Hwf) as (st & Hst & Hload).
  eexists. split; [exact Hload |]. intros n. simpl.
  rewrite (load_rows_bulk _ _ _ Hst n). simpl.
  destruct (load_rows_objects _ _ _ Hst) as (ingredients & Hobj & Hall).
  simpl in Hobj. rewrite Hobj, drop_app_length.
  split.
  - intros [Hn | (i & Hi & Hname & Hnan)];
      [by apply not_elem_of_empty in Hn |].
    apply list_elem_of_lookup in Hi as [k Hk].
    destruct (Forall2_lookup_r _ _ _ _ _ Hall Hk) as (r & Hr & Hri).
    destruct Hri
      as (c0 & c1 & c2 & c3 & c4 & c5 & tail & -> & Hn1 & _ & _ & _ & Hd).
    exists (c0 :: c1 :: c2 :: c3 :: c4 :: c5 :: tail), c1, c5, (duration i).
    repeat split; try done.
    + by apply list_elem_of_lookup_2 in Hr.
    + by rewrite <- Hname, Hn1.
  - intros (r & c1 & c5 & d & Hr & H1 & H5 & -> & Hd & Hnan). right.
    apply list_elem_of_lookup in Hr as [k Hk].
    destruct (Forall2_lookup_l _ _ _ _ _ Hall Hk) as (i & Hi & Hri).
    destruct Hri
      as (c0 & x1 & c2 & c3 & c4 & x5 & tail & -> & Hn1 & _ & _ & _ & Hdi).
    simpl in H1, H5. injection H1 as ->. injection H5 as ->.
    exists i. split; [by apply list_elem_of_lookup_2 in Hi |].
    split; [done |]. rewrite Hd in Hdi. by injection Hdi as <-.
Qed.

Lemma X3_witness :
  ∃ res,
    load_ingredients [] (Example.header :: Sample.body) = Py.Ok res
    ∧ ∀ n,
        n ∈ l_bulk_items res
        ↔ ∃ r c1 c5 d,
            r ∈ Sample.body ∧ r !! 1%nat = Some c1 ∧ r !! 5%nat = Some c5
            ∧ n = Py.strip (Py.lower c1)
            ∧ parse_duration c5 = Py.Ok d ∧ Py.ne d d = true.
Proof.
  apply (X3_bulk_items_are_indefinite [] Example.header Sample.body).
  reflexivity.
Defined.

(** A recipe name is the name the loop started with, or a stripped,
    non-empty cell. *)
Lemma sections_clean (body : list row) :
  ∀ current key,
    key ∈ sections current body →
    key = current ∨ (is_empty key = false ∧ Py.strip key = key).
Proof.
  induction body as [| r body IH]; intros current key; simpl.
  - by intros ?%elem_of_nil.
  - assert (Hsec : section_of current r = current
                   ∨ (is_empty (section_of current r) = false
                      ∧ Py.strip (section_of current r)
                        = section_of current r)).
    { unfold section_of. destruct r as [| c0 r]; [by left |].
      destruct (is_empty (Py.strip c0)) eqn:He; simpl; [by left |].
      right. split; [done | apply strip_idemp]. }
    intros [-> | Hin]%elem_of_cons; [done |].
    destruct (IH _ _ Hin) as [-> | Hc]; [done | by right].
Qed.

(** X4: the keys of a parsed recipe table are stripped, so a name of the
    query that has white space at its start or end (as the second name
    of "Cake, Pie" has) is no key of it, and the cart builder raises a
    KeyError for any query that holds such a name. *)
Theorem X4_padded_name_is_no_key (h : heap) (header : row)
    (body : list row) (query : list string) (key : string) :
  existsb malformed body = false →
  key ∈ query →
  Py.strip key ≠ key →
  ∃ res,
    load_ingredients h (header :: body) = Py.Ok res
    ∧ l_recipes res !! key = None
    ∧ ∀ w, ∃ w2 k,
        build_shopping_cart_table w query (l_recipes res) (l_bulk_items res)
        = (w2, Py.Raise (Py.KeyError k)).
Proof.
  intros Hwf Hin Hpad.
  destruct (load_ok h header body Hwf) as (st & Hst & Hload).
  eexists. split; [exact Hload |]. simpl.
  assert (Hnone : p_recipes st !! key = None).
  { rewrite (load_rows_sections _ _ _ Hst key). simpl.
    case_decide as Hk; [| by rewrite lookup_empty].
    exfalso. destruct (sections_clean _ _ _ Hk) as [-> | [_ Hs]]; [| done].
    by apply Hpad. }
  split; [done |]. intros w.
  destruct (shop_unknown_recipe (p_recipes st) query w [] [["Plan 0"]])
    as (w2 & k & _ & _ & Heq); [by exists key |].
  exists w2, k. unfold build_shopping_cart_table. by rewrite Heq.
Qed.

Lemma X4_witness :
  ∃ res,
    load_ingredients [] (Example.header :: Sample.body) = Py.Ok res
    ∧ l_recipes res !! " Pie" = None
    ∧ ∀ w, ∃ w2 k,
        build_shopping_cart_table w ["Cake"; " Pie"] (l_recipes res)
          (l_bulk_items res)
        = (w2, Py.Raise (Py.KeyError k)).
Proof.
  apply (X4_padded_name_is_no_key [] Example.header Sample.body
           ["Cake"; " Pie"] " Pie").
  - reflexivity.
  - apply elem_of_cons. right. apply elem_of_cons. by left.
  - by vm_compute.
Defined.

Lemma load_row_take (st : parser) (r : row) :
  load_row st (take 6 r) = load_row st r.
Proof.
  by destruct r as [| c0 [| c1 [| c2 [| c3 [| c4 [| c5 tail]]]]]].
Qed.

Lemma load_rows_take (body : list row) :
  ∀ st, load_rows st (take 6 <$> body) = load_rows st body.
Proof.
  induction body as [| r body IH]; intros st; simpl; [done |].
  rewrite load_row_take.
  destruct (load_row st r) as [st1 |]; simpl; [apply IH | done].
Qed.

(** X5: the parser reads the first six cells of a body row and nothing of
    the header row: cutting every body row after its sixth cell and
    replacing the header changes neither the result nor the exception. *)
Theorem X5_cells_past_six_are_ignored (h : heap) (header1 header2 : row)
    (body : list row) :
  load_ingredients h (header1 :: (take 6 <$> body))
  = load_ingredients h (header2 :: body).
Proof. unfold load_ingredients. by rewrite load_rows_take. Qed.

(** X6: in every record the parser makes, the name is in lower case and
    stripped, and the unit and the location are stripped (the unit keeps
    its letter case). *)
Theorem X6_fields_are_normalised (h : heap) (header : row)
    (body : list row) :
  existsb malformed body = false →
  ∃ res,
    load_ingredients h (header :: body) = Py.Ok res
    ∧ Forall
        (λ i, Py.lower (name i) = name i ∧ Py.strip (name i) = name i
              ∧ Py.strip (unit_ i) = unit_ i
              ∧ Py.strip (location i) = location i)
        (drop (length h) (l_objects res)).
Proof.
  intros Hwf. destruct (load_ok h header body Hwf) as (st & Hst & Hload).
  eexists. split; [exact Hload |]. simpl.
  destruct (load_rows_objects _ _ _ Hst) as (ingredients & Hobj & Hall).
  simpl in Hobj. rewrite Hobj, drop_app_length.
  apply Forall_forall. intros i Hi.
  apply list_elem_of_lookup in Hi as [k Hk].
  destruct (Forall2_lookup_r _ _ _ _ _ Hall Hk) as (r & _ & Hri).
  destruct Hri
    as (c0 & c1 & c2 & c3 & c4 & c5 & tail & _ & -> & _ & -> & -> & _).
  repeat split; try apply strip_idemp.
  by rewrite lower_strip, lower_idemp.
Qed.

Lemma X6_witness :
  ∃ res,
    load_ingredients [] (Example.header :: Sample.body) = Py.Ok res
    ∧ Forall
        (λ i, Py.lower (name i) = name i ∧ Py.strip (name i) = name i
              ∧ Py.strip (unit_ i) = unit_ i
              ∧ Py.strip (location i) = location i)
        (drop 0 (l_objects res)).
Proof.
  apply (X6_fields_are_normalised [] Example.header Sample.body).
  reflexivity.
Defined.

(** ** Cart builder *)

Lemma kept_refl (sl : list loc) (w : world) : kept sl w w.
Proof.
  split; try done. exists []. by rewrite app_nil_r.
Qed.

Lemma kept_mono (sl sl' : list loc) (w w' : world) :
  sl ⊆ sl' → kept sl w w' → kept sl' w w'.
Proof.
  intros Hsub [L F O P]. split; try done.
  intros l Hl. apply O. intros Hin. by apply Hl, Hsub.
Qed.

Lemma kept_trans (sl sl' : list loc) (w1 w2 w3 : world) :
  sl ⊆ sl' → kept sl w1 w2 → kept sl' w2 w3 → kept sl' w1 w3.
Proof.
  intros Hsub [L1 F1 O1 [m1 P1]] [L2 F2 O2 [m2 P2]]. split.
  - congruence.
  - intros l. destruct (F1 l) as (? & ? & ? & ?), (F2 l) as (? & ? & ? & ?).
    repeat split; congruence.
  - intros l Hl. rewrite O2 by done. apply O1. intros Hin. apply Hl.
    by apply Hsub.
  - exists (m1 ++ m2). by rewrite P2, P1, <- app_assoc.
Qed.

Lemma app_subseteq (a a' b b' : list loc) :
  a ⊆ a' → b ⊆ b' → a ++ b ⊆ a' ++ b'.
Proof.
  intros Ha Hb x [Hx | Hx]%elem_of_app; apply elem_of_app;
    [left; by apply Ha | right; by apply Hb].
Qed.

Lemma find_entry_Some (h : heap) (i : Ingredient) (sl : list loc) (s : loc) :
  find_entry h i sl = Some s → s ∈ sl ∧ name (deref h s) = name i.
Proof.
  induction sl as [| x sl IH]; simpl; [done |]. unfold Ingredient_eq.
  destruct (String.eqb_spec (name (deref h x)) (name i)) as [Heq | Hne].
  - intros [= <-]. split; [apply elem_of_cons; by left | done].
  - intros H. destruct (IH H) as [Hin Hn].
    split; [apply elem_of_cons; by right | done].
Qed.

Lemma find_entry_is_None (h : heap) (i : Ingredient) (sl : list loc) :
  find_entry h i sl = None ↔ name i ∉ names h sl.
Proof.
  split; [| apply find_entry_none].
  induction sl as [| x sl IH]; simpl; [by intros _ ?%elem_of_nil |].
  unfold Ingredient_eq.
  destruct (String.eqb_spec (name (deref h x)) (name i)) as [Heq | Hne];
    [done |].
  intros H. apply not_elem_of_cons. split; [congruence | by apply IH].
Qed.

(** One ingredient: the list keeps its entries, and takes the ingredient
    at its end when its name is new; only the stored entry is written,
    and only its quantity. *)
Lemma add_ingredient_kept (w w' : world) (sl sl' : list loc) (l : loc) :
  add_ingredient w sl l = (w', sl') →
  kept sl w w'
  ∧ sl' = (if bool_decide (name (deref (objects w) l) ∈ names (objects w) sl)
           then sl else sl ++ [l]).
Proof.
  unfold add_ingredient.
  destruct (find_entry (objects w) (deref (objects w) l) sl) as [s |] eqn:Hf.
  - destruct (find_entry_Some _ _ _ _ Hf) as [Hin Hname].
    assert (Hmem : name (deref (objects w) l) ∈ names (objects w) sl).
    { rewrite <- Hname. unfold names.
      by apply list_elem_of_fmap_2' with s. }
    rewrite (bool_decide_eq_true_2 _ Hmem).
    destruct (Py.ne _ _).
    + intros [= <- <-]. split; [| done]. split; simpl; try done.
      by eexists.
    + intros [= <- <-]. split; [| done]. split; simpl.
      * by rewrite length_insert.
      * intros l'. unfold deref. rewrite list_lookup_total_insert.
        case_decide as Hc; [| done]. destruct Hc as [<- _]. done.
      * intros l' Hl'. unfold deref.
        rewrite list_lookup_total_insert_ne; [done |].
        intros ->. done.
      * exists []. by rewrite app_nil_r.
  - apply find_entry_is_None in Hf.
    rewrite (bool_decide_eq_false_2 _ Hf).
    intros [= <- <-]. split; [apply kept_refl | done].
Qed.

Lemma names_kept (sl : list loc) (w w' : world) (ls : list loc) :
  kept sl w w' → names (objects w') ls = names (objects w) ls.
Proof.
  intros [_ F _ _]. unfold names. apply list_fmap_ext. intros k l _.
  by destruct (F l) as [? _].
Qed.

Lemma names_app (h : heap) (a b : list loc) :
  names h (a ++ b) = names h a ++ names h b.
Proof. unfold names. apply fmap_app. Qed.

Lemma first_seen_app (a b : list string) :
  ∀ seen,
    first_seen seen (a ++ b)
    = first_seen seen a ++ first_seen (seen ++ first_seen seen a) b.
Proof.
  induction a as [| n a IH]; intros seen; simpl.
  - by rewrite app_nil_r.
  - case_bool_decide; [apply IH |].
    rewrite IH. simpl. by rewrite <- app_assoc.
Qed.

Lemma first_seen_NoDup (ns : list string) :
  ∀ seen, NoDup seen → NoDup (seen ++ first_seen seen ns).
Proof.
  induction ns as [| n ns IH]; intros seen Hnd; simpl.
  - by rewrite app_nil_r.
  - case_bool_decide as Hin; [by apply IH |].
    replace (seen ++ n :: first_seen (seen ++ [n]) ns)
      with ((seen ++ [n]) ++ first_seen (seen ++ [n]) ns)
      by by rewrite <- app_assoc.
    apply IH. apply NoDup_app. split; [done |]. split.
    + intros x Hx Hx'. apply list_elem_of_singleton in Hx' as ->. done.
    + apply NoDup_singleton.
Qed.

(** The ingredients of one recipe. *)
Lemma add_ingredients_kept (ls : list loc) :
  ∀ w w' sl sl',
    add_ingredients w sl ls = (w', sl') →
    kept sl' w w'
    ∧ (∃ new, sl' = sl ++ new ∧ new ⊆ ls)
    ∧ names (objects w') sl'
      = names (objects w) sl
        ++ first_seen (names (objects w) sl) (names (objects w) ls).
Proof.
  induction ls as [| l ls IH]; intros w w' sl sl'; simpl.
  - intros [= <- <-]. split; [apply kept_refl |].
    split; [| by rewrite app_nil_r].
    exists []. by rewrite app_nil_r.
  - destruct (add_ingredient w sl l) as [w1 sl1] eqn:H1. intros Hrest.
    destruct (add_ingredient_kept _ _ _ _ _ H1) as [K1 Hsl1].
    destruct (IH _ _ _ _ Hrest) as (K2 & (new & Hnew & Hsub) & Hnames).
    assert (Hsl1' : ∃ n1, sl1 = sl ++ n1 ∧ n1 ⊆ [l]).
    { rewrite Hsl1. case_bool_decide.
      - exists []. rewrite app_nil_r. split; [done |].
        by intros x ?%elem_of_nil.
      - by exists [l]. }
    destruct Hsl1' as (n1 & Hn1 & Hn1sub).
    split; [| split].
    + eapply kept_trans; [| exact K1 | exact K2].
      rewrite Hnew, Hn1. intros x Hx. rewrite <- app_assoc.
      apply elem_of_app. by left.
    + exists (n1 ++ new). split; [by rewrite Hnew, Hn1, app_assoc |].
      by apply (app_subseteq n1 [l] new ls).
    + rewrite Hnames, !(names_kept _ _ _ _ K1), Hsl1.
      case_bool_decide as Hmem; [done |].
      unfold names at 1 2. rewrite !fmap_app. simpl.
      by rewrite <- app_assoc.
Qed.

Lemma requested_cons (recipes : gmap string (list loc)) (key : string)
    (query : list string) :
  requested recipes (key :: query)
  = entries recipes key ++ requested recipes query.
Proof. reflexivity. Qed.

(** The loop over the query, whatever its outcome. *)
Lemma shop_kept (recipes : gmap string (list loc)) (query : list string) :
  ∀ w sl table w' r,
    shop recipes w sl table query = (w', r) →
    kept (sl ++ requested recipes query) w w'.
Proof.
  induction query as [| key query IH]; intros w sl table w' r; simpl.
  - intros [= <- _]. apply kept_refl.
  - rewrite requested_cons. unfold entries.
    destruct (recipes !! key) as [ingredients |]; simpl.
    + destruct (add_ingredients w sl ingredients) as [w1 sl1] eqn:H1.
      intros Hrest.
      destruct (add_ingredients_kept _ _ _ _ _ H1)
        as (K1 & (new & -> & Hsub) & _).
      pose proof (IH _ _ _ _ _ Hrest) as K2.
      eapply kept_trans; [| exact K1 |].
      * apply app_subseteq; [done |].
        intros x Hx. apply elem_of_app. left. by apply Hsub.
      * eapply kept_mono; [| exact K2].
        rewrite <- app_assoc. apply app_subseteq; [done |].
        by apply app_subseteq.
    + intros [= <- _]. apply kept_refl.
Qed.

(** The loop over the query when it comes to its end. *)
Lemma shop_Ok (recipes : gmap string (list loc)) (query : list string) :
  ∀ w sl table w' sl' table',
    shop recipes w sl table query = (w', Py.Ok (sl', table')) →
    kept sl' w w'
    ∧ (∃ new, sl' = sl ++ new ∧ new ⊆ requested recipes query)
    ∧ names (objects w') sl'
      = names (objects w) sl
        ++ first_seen (names (objects w) sl)
             (names (objects w) (requested recipes query)).
Proof.
  induction query as [| key query IH]; intros w sl table w' sl' table'; simpl.
  - intros [= <- <- _]. split; [apply kept_refl |].
    split; [| by rewrite app_nil_r].
    exists []. by rewrite app_nil_r.
  - rewrite requested_cons. unfold entries.
    destruct (recipes !! key) as [ingredients |]; simpl; [| done].
    destruct (add_ingredients w sl ingredients) as [w1 sl1] eqn:H1.
    intros Hrest.
    destruct (add_ingredients_kept _ _ _ _ _ H1)
      as (K1 & (new1 & Hsl1 & Hsub1) & Hn1).
    destruct (IH _ _ _ _ _ _ Hrest) as (K2 & (new2 & Hsl2 & Hsub2) & Hn2).
    split; [| split].
    + eapply kept_trans; [| exact K1 | exact K2].
      rewrite Hsl2. intros x Hx. apply elem_of_app. by left.
    + exists (new1 ++ new2). split; [by rewrite Hsl2, Hsl1, app_assoc |].
      by apply app_subseteq.
    + rewrite Hn2, Hn1, (names_kept _ _ _ _ K1).
      by rewrite names_app, first_seen_app, <- app_assoc.
Qed.

(** The loop over the query comes to its end when every name is a key. *)
Lemma shop_total (recipes : gmap string (list loc)) (query : list string) :
  ∀ w sl table,
    Forall (λ key, is_Some (recipes !! key)) query →
    ∃ w' sl' table',
      shop recipes w sl table query = (w', Py.Ok (sl', table')).
Proof.
  induction query as [| key query IH]; intros w sl table Hkeys; simpl.
  - by eexists _, _, _.
  - apply Forall_cons in Hkeys as [[ingredients ->] Hkeys].
    destruct (add_ingredients w sl ingredients) as [w1 sl1].
    by apply IH.
Qed.

(** A query in two parts: the second part goes on where the first ended,
    unless the first raised. *)
Lemma shop_app (recipes : gmap string (list loc)) (q1 q2 : list string) :
  ∀ w sl table,
    shop recipes w sl table (q1 ++ q2)
    = match shop recipes w sl table q1 with
      | (w1, Py.Ok (sl1, table1)) => shop recipes w1 sl1 table1 q2
      | (w1, Py.Raise e) => (w1, Py.Raise e)
      end.
Proof.
  induction q1 as [| key q1 IH]; intros w sl table; simpl; [done |].
  destruct (recipes !! key) as [ingredients |]; [| done].
  destruct (add_ingredients w sl ingredients) as [w1 sl1]. apply IH.
Qed.

(** X7: whatever the query and whatever the outcome (a table, a KeyError
    or an error of the formatting), the build writes quantities only: the
    store keeps its length, every record keeps its name, unit, location
    and duration, and what was printed before is still the start of what
    is printed. *)
Theorem X7_only_quantities_change (w : world) (query : list string)
    (recipes : gmap string (list loc)) (bulk_items : gset string) (l : loc) :
  let w' := fst (build_shopping_cart_table w query recipes bulk_items) in
  length (objects w') = length (objects w)
  ∧ name (deref (objects w') l) = name (deref (objects w) l)
  ∧ unit_ (deref (objects w') l) = unit_ (deref (objects w) l)
  ∧ location (deref (objects w') l) = location (deref (objects w) l)
  ∧ duration (deref (objects w') l) = duration (deref (objects w) l)
  ∧ ∃ more, printed w' = printed w ++ more.
Proof.
  unfold build_shopping_cart_table.
  destruct (shop recipes w [] [["Plan 0"]] query) as [w1 r] eqn:Hshop.
  simpl. destruct (shop_kept _ _ _ _ _ _ _ Hshop) as [L F _ P].
  destruct (F l) as (? & ? & ? & ?). by repeat split.
Qed.

(** X8: a record that no recipe of the query lists is left as it was,
    quantity included, whatever the outcome of the build. *)
Theorem X8_other_records_untouched (w : world) (query : list string)
    (recipes : gmap string (list loc)) (bulk_items : gset string) (l : loc) :
  l ∉ requested recipes query →
  deref (objects (fst (build_shopping_cart_table w query recipes bulk_items))) l
  = deref (objects w) l.
Proof.
  intros Hl. unfold build_shopping_cart_table.
  destruct (shop recipes w [] [["Plan 0"]] query) as [w1 r] eqn:Hshop.
  simpl. destruct (shop_kept _ _ _ _ _ _ _ Hshop) as [_ _ O _].
  by apply O.
Qed.

Lemma X8_witness :
  deref (objects (fst (build_shopping_cart_table
                         (World Example.sugar_objects []) ["A"]
                         Example.sugar_recipes ∅))) 1
  = deref Example.sugar_objects 1.
Proof.
  apply (X8_other_records_untouched (World Example.sugar_objects []) ["A"]
           Example.sugar_recipes ∅ 1%nat).
  vm_compute. intros H. apply list_elem_of_In in H.
  destruct H as [H | []]. discriminate H.
Defined.

(** X9: when every name of the query is a key, the loop over the query
    ends with a shopping list whose names are the names of the requested
    records in the order of their first occurrence, each once; its
    entries are among the requested records. *)
Theorem X9_shopping_list_is_first_seen (w : world) (query : list string)
    (recipes : gmap string (list loc)) :
  Forall (λ key, is_Some (recipes !! key)) query →
  ∃ w' shopping_list table,
    shop recipes w [] [["Plan 0"]] query
    = (w', Py.Ok (shopping_list, table))
    ∧ names (objects w') shopping_list
      = first_seen [] (names (objects w) (requested recipes query))
    ∧ NoDup (names (objects w') shopping_list)
    ∧ shopping_list ⊆ requested recipes query.
Proof.
  intros Hkeys.
  destruct (shop_total recipes query w [] [["Plan 0"]] Hkeys)
    as (w' & sl & table & Hshop).
  exists w', sl, table. split; [done |].
  destruct (shop_Ok _ _ _ _ _ _ _ _ Hshop) as (_ & (new & Hsl & Hsub) & Hn).
  simpl in Hn, Hsl. subst new. split; [done |]. split; [| done].
  rewrite Hn. apply (first_seen_NoDup _ []). constructor.
Qed.

Lemma X9_witness :
  ∃ w' shopping_list table,
    shop Sample.recipes (World Sample.objects []) [] [["Plan 0"]]
      ["Pie"; "Cake"]
    = (w', Py.Ok (shopping_list, table))
    ∧ names (objects w') shopping_list
      = first_seen []
          (names Sample.objects (requested Sample.recipes ["Pie"; "Cake"]))
    ∧ NoDup (names (objects w') shopping_list)
    ∧ shopping_list ⊆ requested Sample.recipes ["Pie"; "Cake"].
Proof.
  apply (X9_shopping_list_is_first_seen (World Sample.objects [])
           ["Pie"; "Cake"] Sample.recipes).
  repeat constructor; by eexists.
Defined.

(** X10: when the loop over the query ends, the records it has written
    are entries of the shopping list: every other record, of the
    requested recipes or not, is as it was. *)
Theorem X10_only_entries_are_written (w w' : world) (query : list string)
    (recipes : gmap string (list loc)) (shopping_list : list loc)
    (table : list (list string)) (l : loc) :
  shop recipes w [] [["Plan 0"]] query = (w', Py.Ok (shopping_list, table)) →
  l ∉ shopping_list →
  deref (objects w') l = deref (objects w) l.
Proof.
  intros Hshop Hl.
  destruct (shop_Ok _ _ _ _ _ _ _ _ Hshop) as ([_ _ O _] & _ & _).
  by apply O.
Qed.

Lemma X10_witness :
  deref
    [ {| name := "sugar"; quantity := 3%float; unit_ := "cup";
         location := "pantry"; duration := 0%float |};
      {| name := "sugar"; quantity := 2%float; unit_ := "cup";
         location := "pantry"; duration := 0%float |} ] 1
  = deref Example.sugar_objects 1.
Proof.
  apply (X10_only_entries_are_written (World Example.sugar_objects [])
           (World _ []) ["A"; "B"] Example.sugar_recipes [0%nat]
           [["Plan 0"]; ["A"]; ["B"]] 1%nat).
  - by vm_compute.
  - intros H. apply list_elem_of_In in H.
    destruct H as [H | []]. discriminate H.
Defined.

(** X11: when the stored entry and the ingredient have the same unit up
    to letter case, the merge adds the quantity of the ingredient to the
    stored quantity as it is, without rounding, and prints nothing. *)
Theorem X11_same_unit_adds_exactly (w : world) (shopping_list : list loc)
    (l s : loc) :
  let ingredient := deref (objects w) l in
  let stored := deref (objects w) s in
  find_entry (objects w) ingredient shopping_list = Some s →
  eq_ignore_case (unit_ stored) (unit_ ingredient) = true →
  add_ingredient w shopping_list l
  = (World
       (<[s := set_quantity (quantity stored + quantity ingredient)%float
                 stored]> (objects w))
       (printed w),
     shopping_list).
Proof.
  intros ingredient stored Hfind Hunit. unfold add_ingredient.
  fold ingredient. rewrite Hfind. fold stored.
  assert (Hconv : convert_units (unit_ stored) (unit_ ingredient) = 1%float).
  { unfold convert_units.
    by rewrite (eq_ignore_case_lower _ _ Hunit), String.eqb_refl. }
  by rewrite Hconv.
Qed.

Lemma X11_witness :
  add_ingredient (World Sample.objects []) [0%nat] 2%nat
  = (World
       (<[0%nat := set_quantity
                     (quantity (deref Sample.objects 0)
                      + quantity (deref Sample.objects 2))%float
                     (deref Sample.objects 0)]> Sample.objects)
       [],
     [0%nat]).
Proof.
  exact (X11_same_unit_adds_exactly (World Sample.objects []) [0%nat]
           2%nat 0%nat eq_refl eq_refl).
Defined.

Lemma ingredient_row_Ok (i : Ingredient) :
  unit_ i ≠ "count" → ∃ cells, ingredient_row i = Py.Ok cells.
Proof.
  intros Hu. unfold ingredient_row.
  destruct (is_empty (Py.strip (unit_ i))); [by eexists |].
  destruct (String.eqb_spec (unit_ i) "count"); [done | by eexists].
Qed.

Lemma mapM_ingredient_row_Ok (column : list Ingredient) :
  Forall (λ i, unit_ i ≠ "count") column →
  ∃ rendered, mapM ingredient_row column = Py.Ok rendered.
Proof.
  induction column as [| i column IH]; intros Hall; simpl; [by eexists |].
  apply Forall_cons in Hall as [Hi Hall].
  destruct (ingredient_row_Ok i Hi) as [cells ->].
  destruct (IH Hall) as [rendered ->]. by eexists.
Qed.

Lemma deref_Forall (P : Ingredient → Prop) (h : heap) (l : loc) :
  Forall P h → P inhabitant → P (deref h l).
Proof.
  intros Hall Hd. unfold deref. rewrite list_lookup_total_alt.
  destruct (h !! l) as [i |] eqn:Hl; simpl; [| done].
  rewrite Forall_forall in Hall. apply Hall.
  by apply list_elem_of_lookup_2 in Hl.
Qed.

(** X12: the build returns a table when every name of the query is a key
    and no record of the store has the unit count (the one unit for which
    the formatting calls int(), which raises on nan and the
    infinities). *)
Theorem X12_build_returns (w : world) (query : list string)
    (recipes : gmap string (list loc)) (bulk_items : gset string) :
  Forall (λ key, is_Some (recipes !! key)) query →
  Forall (λ i, unit_ i ≠ "count") (objects w) →
  ∃ w' table,
    build_shopping_cart_table w query recipes bulk_items
    = (w', Py.Ok table).
Proof.
  intros Hkeys Hunits. unfold build_shopping_cart_table.
  destruct (shop_total recipes query w [] [["Plan 0"]] Hkeys)
    as (w' & sl & table & Hshop).
  rewrite Hshop. simpl.
  destruct (shop_kept _ _ _ _ _ _ _ Hshop) as [_ F _ _].
  assert (Hall : ∀ P : Ingredient → Prop, ∀ `{∀ x, Decision (P x)},
            Forall (λ i, unit_ i ≠ "count")
              (filter P (deref (objects w') <$> sl))).
  { intros P HP. apply Forall_forall. intros i Hi.
    apply list_elem_of_filter in Hi as [_ Hi].
    apply list_elem_of_fmap in Hi as (l & -> & _).
    destruct (F l) as (_ & -> & _).
    by apply deref_Forall. }
  unfold main_ingredient_table, pantry_ingredient_table,
    fresh_entries, pantry_entries.
  destruct (mapM_ingredient_row_Ok _
              (Hall (λ i, negb (in_bulk bulk_items i)) _)) as [main ->].
  destruct (mapM_ingredient_row_Ok _
              (Hall (λ i, in_bulk bulk_items i) _)) as [pantry ->].
  simpl. by eexists _, _.
Qed.

Lemma X12_witness :
  ∃ w' table,
    build_shopping_cart_table (World Sample.objects []) ["Cake"; "Pie"]
      Sample.recipes Sample.bulk_items
    = (w', Py.Ok table).
Proof.
  apply (X12_build_returns (World Sample.objects []) ["Cake"; "Pie"]
           Sample.recipes Sample.bulk_items).
  - repeat constructor; by eexists.
  - repeat constructor; discriminate.
Defined.

(** X13: the KeyError names the first name of the query that is not a
    key, and the world it leaves is the world after the loop over the
    names before it: the merges of those recipes have been made, and
    their records written, when the build fails. *)
Theorem X13_first_unknown_recipe (w : world) (pre post : list string)
    (key : string) (recipes : gmap string (list loc))
    (bulk_items : gset string) :
  Forall (λ k, is_Some (recipes !! k)) pre →
  recipes !! key = None →
  ∃ w1 shopping_list table,
    shop recipes w [] [["Plan 0"]] pre = (w1, Py.Ok (shopping_list, table))
    ∧ build_shopping_cart_table w (pre ++ key :: post) recipes bulk_items
      = (w1, Py.Raise (Py.KeyError key)).
Proof.
  intros Hpre Hkey.
  destruct (shop_total recipes pre w [] [["Plan 0"]] Hpre)
    as (w1 & sl & table & Hshop).
  exists w1, sl, table. split; [done |].
  unfold build_shopping_cart_table. rewrite shop_app, Hshop. simpl.
  by rewrite Hkey.
Qed.

Lemma X13_witness :
  ∃ w1 shopping_list table,
    shop Example.sugar_recipes (World Example.sugar_objects []) []
      [["Plan 0"]] ["A"; "B"]
    = (w1, Py.Ok (shopping_list, table))
    ∧ build_shopping_cart_table (World Example.sugar_objects [])
        (["A"; "B"] ++ "C" :: ["A"]) Example.sugar_recipes ∅
      = (w1, Py.Raise (Py.KeyError "C")).
Proof.
  apply (X13_first_unknown_recipe (World Example.sugar_objects [])
           ["A"; "B"] ["A"] "C" Example.sugar_recipes ∅).
  - repeat constructor; by eexists.
  - reflexivity.
Defined.

(** ** Units the converter cannot relate *)





(** X14: the two columns split the shopping list: together they hold
    every entry once, and each keeps the order of the list. *)
Theorem X14_columns_partition (h : heap) (bulk_items : gset string)
    (shopping_list : list loc) :
  fresh_entries h bulk_items shopping_list
  ++ pantry_entries h bulk_items shopping_list
  ≡ₚ deref h <$> shopping_list
  ∧ fresh_entries h bulk_items shopping_list
    `sublist_of` deref h <$> shopping_list
  ∧ pantry_entries h bulk_items shopping_list
    `sublist_of` deref h <$> shopping_list.
Proof.
  unfold fresh_entries, pantry_entries. split; [| split].
  - generalize (deref h <$> shopping_list). intros l.
    induction l as [| i l IH]; [done |].
    rewrite !filter_cons. destruct (in_bulk bulk_items i); simpl.
    + rewrite <- Permutation_middle. by constructor.
    + by constructor.
  - apply sublist_filter.
  - apply sublist_filter.
Qed.

(** When the names of the requested records are all different, every
    record is appended and none is written. *)
Lemma shop_distinct (recipes : gmap string (list loc))
    (query : list string) :
  ∀ w sl table,
    Forall (λ key, is_Some (recipes !! key)) query →
    NoDup (names (objects w) (sl ++ requested recipes query)) →
    shop recipes w sl table query
    = (w, Py.Ok (sl ++ requested recipes query,
                 table ++ ((λ key, [key]) <$> query))).
Proof.
  induction query as [| key query IH]; intros w sl table Hkeys Hnd; simpl.
  - by rewrite !app_nil_r.
  - apply Forall_cons in Hkeys as [[ingredients Hk] Hkeys].
    rewrite requested_cons in *. unfold entries in *. rewrite Hk in *.
    simpl in *. rewrite app_assoc in Hnd.
    rewrite first_pass.
    + rewrite (IH _ _ _ Hkeys Hnd). by rewrite <- !app_assoc.
    + rewrite names_app in Hnd. by apply NoDup_app in Hnd as (? & _).
Qed.

(** X21: when every name of the query is a key and the requested records
    have names that are all different, the build changes no record and
    prints nothing, and the shopping list is the requested records in
    their order: the recipe table is only read. *)
Theorem X21_distinct_names_change_nothing (w : world) (query : list string)
    (recipes : gmap string (list loc)) (bulk_items : gset string) :
  Forall (λ key, is_Some (recipes !! key)) query →
  NoDup (names (objects w) (requested recipes query)) →
  fst (build_shopping_cart_table w query recipes bulk_items) = w
  ∧ shop recipes w [] [["Plan 0"]] query
    = (w, Py.Ok (requested recipes query,
                 [["Plan 0"]] ++ ((λ key, [key]) <$> query))).
Proof.
  intros Hkeys Hnd.
  pose proof (shop_distinct recipes query w [] [["Plan 0"]] Hkeys Hnd)
    as Hshop.
  split; [| exact Hshop].
  unfold build_shopping_cart_table. by rewrite Hshop.
Qed.

Lemma X21_witness :
  fst (build_shopping_cart_table (World Sample.objects []) ["Cake"]
         Sample.recipes Sample.bulk_items)
  = World Sample.objects []
  ∧ shop Sample.recipes (World Sample.objects []) [] [["Plan 0"]] ["Cake"]
    = (World Sample.objects [],
       Py.Ok (requested Sample.recipes ["Cake"],
              [["Plan 0"]] ++ ((λ key, [key]) <$> ["Cake"]))).
Proof.
  apply (X21_distinct_names_change_nothing (World Sample.objects [])
           ["Cake"] Sample.recipes Sample.bulk_items).
  - repeat constructor; by eexists.
  - vm_compute. repeat constructor.
    + intros H. apply list_elem_of_In in H.
      destruct H as [H | []]. discriminate H.
    + intros H. by apply elem_of_nil in H.
Defined.

(** ** The command line and the printed text *)

Lemma has_char_append (c : ascii) (a b : string) :
  has_char c (a +:+ b) = has_char c a || has_char c b.
Proof.
  induction a as [| x a IH]; [done |].
  rewrite string_append_cons. simpl. by rewrite IH, orb_assoc.
Qed.

(** No part of a split holds the separator. *)
Lemma split_parts_clean (sep : ascii) (s : string) :
  Forall (λ p, has_char sep p = false) (split sep s).
Proof.
  induction s as [| c s IH]; simpl; [by repeat constructor |].
  destruct (Ascii.eqb c sep) eqn:Hc; [by constructor |].
  destruct (split sep s) as [| p parts];
    [by repeat constructor; simpl; rewrite Hc |].
  apply Forall_cons in IH as [Hp Hparts].
  constructor; [| done]. simpl. by rewrite Hc.
Qed.

Lemma split_clean (sep : ascii) (s : string) :
  has_char sep s = false → split sep s = [s].
Proof.
  induction s as [| c s IH]; simpl; [done |].
  intros [Hc Hs]%orb_false_iff. rewrite Hc. by rewrite (IH Hs).
Qed.

Lemma split_append (sep : ascii) (a b : string) :
  has_char sep a = false →
  split sep (a +:+ String sep b) = a :: split sep b.
Proof.
  induction a as [| c a IH].
  - intros _. simpl. by rewrite Ascii.eqb_refl.
  - intros [Hc Ha]%orb_false_iff. rewrite string_append_cons. simpl.
    by rewrite Hc, (IH Ha).
Qed.

Lemma has_char_join (c sep : ascii) (parts : list string) :
  Ascii.eqb sep c = false →
  Forall (λ p, has_char c p = false) parts →
  has_char c (join (String sep "") parts) = false.
Proof.
  intros Hsep. induction parts as [| p parts IH]; [done |].
  intros [Hp Hparts]%Forall_cons.
  destruct parts as [| p' parts]; [done |].
  change (join (String sep "") (p :: p' :: parts))
    with (p +:+ String sep (join (String sep "") (p' :: parts))).
  rewrite has_char_append, Hp. cbn [has_char orb].
  rewrite Hsep. by apply IH.
Qed.

(** Parts without the separator, joined and split again, come back. *)
Lemma split_join (sep : ascii) (parts : list string) :
  parts ≠ [] →
  Forall (λ p, has_char sep p = false) parts →
  split sep (join (String sep "") parts) = parts.
Proof.
  induction parts as [| p parts IH]; [done |]. intros _.
  intros [Hp Hparts]%Forall_cons.
  destruct parts as [| p' parts]; [by apply split_clean |].
  change (join (String sep "") (p :: p' :: parts))
    with (p +:+ String sep (join (String sep "") (p' :: parts))).
  rewrite (split_append _ _ _ Hp). f_equal. by apply IH.
Qed.

(** X18: a name of the query made of command-line words is never blank
    and never holds a comma (it keeps white space around it, if it has
    any). *)
Theorem X18_query_names_from_words (query_arg : list string)
    (clipboard : string) :
  query_arg ≠ [] →
  Forall (λ q, Py.strip q ≠ "" ∧ has_char "," q = false)
    (query_of query_arg clipboard).
Proof.
  intros Hne. unfold query_of.
  destruct query_arg as [| w ws]; [done |]. simpl Nat.ltb. cbv iota.
  apply Forall_forall. intros q Hq.
  apply list_elem_of_filter in Hq as [Hq Hin]. split.
  - apply is_empty_false. by destruct (is_empty (Py.strip q)).
  - pose proof (split_parts_clean "," (join " " (w :: ws))) as Hall.
    rewrite Forall_forall in Hall. by apply Hall.
Qed.

Lemma X18_witness :
  Forall (λ q, Py.strip q ≠ "" ∧ has_char "," q = false)
    (query_of ["Cake,"; "Pie,,"; "Bread"] "").
Proof.
  apply (X18_query_names_from_words ["Cake,"; "Pie,,"; "Bread"] "").
  discriminate.
Defined.

(** X19: command-line words without a comma make one name, the words
    joined by single spaces: a recipe name of several words can be given
    unquoted. *)
Theorem X19_words_without_comma (query_arg : list string)
    (clipboard : string) :
  query_arg ≠ [] →
  Forall (λ w, has_char "," w = false) query_arg →
  Py.strip (join " " query_arg) ≠ "" →
  query_of query_arg clipboard = [join " " query_arg].
Proof.
  intros Hne Hwords Hblank. unfold query_of.
  destruct query_arg as [| w ws]; [done |]. simpl Nat.ltb. cbv iota.
  rewrite split_clean by by apply (has_char_join "," " ").
  rewrite filter_cons, decide_True; [done |].
  apply is_empty_false in Hblank. by rewrite Hblank.
Qed.

Lemma X19_witness :
  query_of ["Apple"; "Pie"] "" = [join " " ["Apple"; "Pie"]].
Proof.
  apply (X19_words_without_comma ["Apple"; "Pie"] "").
  - discriminate.
  - repeat constructor.
  - by vm_compute.
Defined.

Lemma render_cons (row : list string) (table : list (list string)) :
  render (row :: table)
  = join (String "009" "") row +:+ String "010" (render table).
Proof. simpl. by rewrite string_append_assoc. Qed.

(** X20: when no cell holds a tab or a line feed, the printed text read
    back (split at line feeds, each line split at tabs) is the table, but
    for an empty row, which reads back as one empty cell, and for the
    empty line after the last line feed. *)
Theorem X20_render_reads_back (table : list (list string)) :
  Forall (Forall (λ c, has_char "009" c = false ∧ has_char "010" c = false))
    table →
  split "009" <$> split "010" (render table)
  = ((λ row, match row with [] => [""] | _ => row end) <$> table) ++ [[""]].
Proof.
  induction table as [| row table IH]; [done |].
  intros [Hrow Htable]%Forall_cons.
  rewrite render_cons, split_append.
  - rewrite !fmap_cons, (IH Htable). simpl app. f_equal.
    destruct row as [| c row]; [done |].
    apply split_join; [done |].
    eapply Forall_impl; [exact Hrow |]. by intros x [? _].
  - apply has_char_join; [done |].
    eapply Forall_impl; [exact Hrow |]. by intros x [_ ?].
Qed.

Lemma X20_witness :
  split "009" <$> split "010"
    (render [["Plan 0"]; []; ["Ingredients"; ""; ""; "Pantry"]])
  = ((λ row, match row with [] => [""] | _ => row end)
       <$> [["Plan 0"]; []; ["Ingredients"; ""; ""; "Pantry"]]) ++ [[""]].
Proof.
  apply (X20_render_reads_back
           [["Plan 0"]; []; ["Ingredients"; ""; ""; "Pantry"]]).
  repeat constructor.
Defined.
